(** * gnssmapper: satellite orbit model (satellitedata.py)

    A shallow embedding of [gnssmapper/satellitedata.py]: the orbit fitter
    ([_create_orbit], [_poly_lagrange]), the model updater
    ([_update_orbits], [_load_orbit], [_save_orbit]) and the position
    evaluator ([_locate_sat], [_locate_sat_vectorised]).

    Conventions of the embedding.
    - Python exceptions are values of [exn]; a computation that may raise
      returns [res A].  Methods of [SatelliteData] run in the monad [M],
      which threads the object and a chronological trace of the warnings
      issued and of the calls made to [_get_sp3_file].
    - Times are whole nanoseconds and are modelled by [Z]; the values met in
      a day are far below 2^53 and 2^63, so int64 and float64 agree on them
      and nothing wraps.
    - float64 arithmetic is kept abstract in the class [FloatOps]: every
      theorem holds whatever the rounding behaviour is.
    - The keys of a window map are the floats [mid[0]], written to JSON as
      strings and read back through [astype("float").astype("int64")]; the
      embedding keeps the integer they denote. *)

From Stdlib Require Import ZArith List Lia QArith Ascii String.
From stdpp Require Import base option list gmap strings sorting.

Local Open Scope Z_scope.

(** ** Exceptions and results *)

Inductive exn : Type :=
  | ValueError
  | IndexError
  | OSError
  | URLError.

Inductive res (A : Type) : Type :=
  | Ok (a : A)
  | Raise (e : exn).
Arguments Ok {A} a.
Arguments Raise {A} e.

#[global] Instance res_ret : MRet res := fun _ a => Ok a.
#[global] Instance res_bind : MBind res := fun _ _ f r =>
  match r with
  | Ok a => f a
  | Raise e => Raise e
  end.

(** [for x in l: acc = f(acc, x)], stopping at the first exception. *)
Fixpoint foldM {A B : Type} (f : A → B → res A) (l : list B) (a : A) : res A :=
  match l with
  | [] => Ok a
  | b :: l' => a' ← f a b; foldM f l' a'
  end.

(** ** Floating point numbers *)

Class FloatOps : Type := {
  float : Type;
  nan : float;
  (** conversion of an int64 to float64 *)
  of_int : Z → float;
  fadd : float → float → float;
  fsub : float → float → float;
  fmul : float → float → float;
  fdiv : float → float → float;
  (** [scipy.interpolate.lagrange x w], as the coefficients of the
      resulting [poly1d], highest degree first *)
  lagrange : list float → list float → list float;
}.

(** ** Python and pandas helpers *)

(** [range(start, stop, step)] for a positive [step]. *)
Definition py_range (start stop step : Z) : list Z :=
  (λ k : nat, start + Z.of_nat k * step) <$>
    seq 0 (Z.to_nat ((stop - start + step - 1) / step)).

(** [d[k] = v] on an insertion-ordered dict: a key already present keeps its
    place. *)
Fixpoint dict_set {V : Type} (k : Z) (v : V) (d : list (Z * V)) : list (Z * V) :=
  match d with
  | [] => [(k, v)]
  | (k', v') :: d' =>
      if decide (k = k') then (k, v) :: d' else (k', v') :: dict_set k v d'
  end.

(** [Series.unique()]: the values in order of first appearance. *)
Definition pd_unique (l : list string) : list string :=
  fold_left (λ acc s, if decide (s ∈ acc) then acc else acc ++ [s]) l [].

(** [int(s)] for a string of decimal digits (a day of year), as [get_date]
    writes it.  [py_int] is [int] on the strings of decimal digits, on the
    empty string and on the strings with a character that [int] accepts in
    no string; the signs, blanks and underscores that [int] accepts as well
    are refused here, and nothing is stated about such strings. *)
Definition digit_of_ascii (c : ascii) : option Z :=
  let n := Z.of_N (Ascii.N_of_ascii c) in
  if decide (48 ≤ n ≤ 57) then Some (n - 48) else None.

Fixpoint int_of_digits (acc : Z) (s : string) : option Z :=
  match s with
  | EmptyString => Some acc
  | String c s' => d ← digit_of_ascii c; int_of_digits (10 * acc + d) s'
  end.

Definition py_int (s : string) : res Z :=
  match s with
  | EmptyString => Raise ValueError
  | _ => match int_of_digits 0 s with
         | Some n => Ok n
         | None => Raise ValueError
         end
  end.

(** [re.split(r"_|\.", s)] *)
Definition is_sep (c : ascii) : bool :=
  bool_decide (c = "_"%char ∨ c = "."%char).

Fixpoint re_split (s : string) : list string :=
  match s with
  | EmptyString => [EmptyString]
  | String c s' =>
      if is_sep c then EmptyString :: re_split s'
      else match re_split s' with
           | piece :: pieces => String c piece :: pieces
           | [] => [String c EmptyString]
           end
  end.

(** [s[n:]] *)
Fixpoint str_drop (n : nat) (s : string) : string :=
  match n, s with
  | O, _ => s
  | S n', String _ s' => str_drop n' s'
  | S _, EmptyString => EmptyString
  end.

(** [min(l)] of a Python sequence *)
Definition py_min (l : list Z) : res Z :=
  match l with
  | [] => Raise ValueError
  | a :: l' => Ok (fold_left Z.min l' a)
  end.

(** [a[i]] for a Python list or a numpy array: a negative index counts from
    the end, an index out of range raises. *)
Definition py_index {A : Type} (a : list A) (i : Z) : res A :=
  let n := Z.of_nat (length a) in
  let j := if decide (i < 0) then i + n else i in
  if decide (0 ≤ j < n) then
    match a !! Z.to_nat j with
    | Some v => Ok v
    | None => Raise IndexError
    end
  else Raise IndexError.

(** Binary search for the leftmost insertion point of [v] in [a] between
    [lo] and [hi]; [hi - lo] steps are enough. *)
Fixpoint bisect_left (fuel : nat) (a : list Z) (v : Z) (lo hi : nat) : nat :=
  match fuel with
  | O => lo
  | S fuel' =>
      if decide (lo < hi)%nat then
        let m := (lo + (hi - lo) / 2)%nat in
        match a !! m with
        | Some am =>
            if decide (am < v) then bisect_left fuel' a v (S m) hi
            else bisect_left fuel' a v lo m
        | None => lo
        end
      else lo
  end.

(** [np.searchsorted(a, v, side="left")] for one value [v].  numpy presumes
    that [a] is sorted; on a sorted array the result is the leftmost
    insertion point, whichever way the search is run. *)
Definition searchsorted (a : list Z) (v : Z) : Z :=
  Z.of_nat (bisect_left (length a) a v 0 (length a)).

(** The order of Python strings, and [np.unique]: the distinct values,
    sorted. *)
Definition str_le (a b : string) : Prop := String.leb a b = true.

#[global] Instance str_le_dec : RelDecision str_le.
Proof. intros a b. unfold str_le. apply _. Defined.

Definition np_unique (l : list string) : list string :=
  pd_unique (merge_sort str_le l).

(** ** Data model *)

Section Model.
Context {FO : FloatOps}.

(** A 4-vector [time, x, y, z] of floats: a row of the per-satellite frame
    once pandas has upcast it to float64, [mid] and [scale]. *)
Record vec4 : Type := Vec4 { v_tm : float; v_x : float; v_y : float; v_z : float }.

Definition vec4_sub (a b : vec4) : vec4 :=
  Vec4 (fsub (v_tm a) (v_tm b)) (fsub (v_x a) (v_x b))
       (fsub (v_y a) (v_y b)) (fsub (v_z a) (v_z b)).

Definition vec4_div (a b : vec4) : vec4 :=
  Vec4 (fdiv (v_tm a) (v_tm b)) (fdiv (v_x a) (v_x b))
       (fdiv (v_y a) (v_y b)) (fdiv (v_z a) (v_z b)).

(** A row of the frame [orbits] of [_create_orbit]: columns tm (int64), x, y,
    z (float64). *)
Record sample : Type := Sample { tm : Z; x : float; y : float; z : float }.

(** [frame.iloc[k, :]]: the row as one float64 Series. *)
Definition row (s : sample) : vec4 := Vec4 (of_int (tm s)) (x s) (y s) (z s).

(** The value stored under a window midpoint (the Window Fit). *)
Record poly_dict : Type := PolyDict {
  lb : Z;
  ub : Z;
  mid : vec4;
  scale : vec4;
  coef_x : list float;
  coef_y : list float;
  coef_z : list float;
}.

(** An ordered window map, a day's model and the two-level store. *)
Abbreviation window_map := (list (Z * poly_dict)).
Abbreviation day_model := (gmap string (list (Z * poly_dict))).

(** A row of the frame returned by [_get_sp3_dataframe] (the columns epoch
    and clockerror are never read by this module). *)
Record sp3_row : Type := Sp3Row {
  r_date : string;
  r_time : Z;
  r_svid : string;
  r_x : float;
  r_y : float;
  r_z : float;
}.

(** ** Orbit fitter *)

(** [iloc[k]] of the slice; out of range raises. *)
Definition iloc (data_var : list sample) (k : nat) : res sample :=
  match data_var !! k with
  | Some s => Ok s
  | None => Raise IndexError
  end.

(** [coefs(dim)] of [_poly_lagrange]: the Lagrange polynomial through the
    scaled times and the scaled column, lowest degree first. *)
Definition coefs (scaled_data : list vec4) (dim : vec4 → float) : list float :=
  rev (lagrange (v_tm <$> scaled_data) (dim <$> scaled_data)).

Definition _poly_lagrange (i : Z) (alldata : list sample) : res (Z * poly_dict) :=
  if decide (i < 3 ∨ i > Z.of_nat (length alldata) - 5) then Raise ValueError
  else
    let data_var := take 8 (drop (Z.to_nat (i - 3)) alldata) in
    r0 ← iloc data_var 0;
    r7 ← iloc data_var 7;
    r3 ← iloc data_var 3;
    let mid := row r3 in
    let scale := vec4_sub (row r7) (row r0) in
    let scaled_data := (λ s, vec4_div (vec4_sub (row s) mid) scale) <$> data_var in
    Ok (tm r3,
        {| lb := tm r0; ub := tm r7; mid := mid; scale := scale;
           coef_x := coefs scaled_data v_x;
           coef_y := coefs scaled_data v_y;
           coef_z := coefs scaled_data v_z |}).

(** The centre indices chosen for a series of [n] samples:
    [idxs = list(range(3, n - 5, 4))], then [n - 5] appended unless
    [idxs[-1]] is already [n - 5]. *)
Definition centre_indices (n : Z) : res (list Z) :=
  let idxs := py_range 3 (n - 5) 4 in
  match last idxs with
  | None => Raise IndexError
  | Some l => Ok (if decide (l ≠ n - 5) then idxs ++ [n - 5] else idxs)
  end.

(** Body of the loop [for id_ in sp3_df["svid"].unique()] for one series
    [orbits]: the windows are written into [dic = polyXYZ[id_]].  The
    defaultdict creates [polyXYZ[id_]] at the first window written, and a
    run that does not raise writes at least one. *)
Definition fit_series (orbits : list sample) (dic : window_map) : res window_map :=
  idxs ← centre_indices (Z.of_nat (length orbits));
  foldM (λ d i, kv ← _poly_lagrange i orbits; Ok (dict_set kv.1 kv.2 d)) idxs dic.

(** Frame with the column tm added. *)
Definition add_tm (sp3_df : list sp3_row) : res (list (string * sample)) :=
  day ← foldM (λ acc r, d ← py_int (str_drop 4 (r_date r)); Ok (acc ++ [d])) sp3_df [];
  m ← py_min day;
  Ok (zip_with (λ r d, (r_svid r,
        Sample (r_time r + (d - m) * 24 * 3600 * 10 ^ 9) (r_x r) (r_y r) (r_z r)))
      sp3_df day).

(** The order of [sort_values(["svid", "tm"])].  Rows of one satellite at
    equal times are left in the order of [merge_sort], which need not be
    the one of pandas; nothing is stated about such rows. *)
Definition row_le (a b : string * sample) : Prop :=
  String.ltb a.1 b.1 = true ∨ (a.1 = b.1 ∧ tm a.2 ≤ tm b.2).

#[global] Instance row_le_dec : RelDecision row_le.
Proof. intros a b. unfold row_le. apply _. Defined.

Definition _create_orbit (sp3_df : list sp3_row) : res day_model :=
  rows ← add_tm sp3_df;
  let sorted := merge_sort row_le rows in
  foldM (λ (polyXYZ : day_model) id_,
           let orbits := snd <$> filter (λ r, r.1 = id_) sorted in
           dic ← fit_series orbits (default [] (polyXYZ !! id_));
           Ok (<[id_ := dic]> polyXYZ))
        (pd_unique (fst <$> sorted)) ∅.

(** ** The store and its persistence *)

(** Product tiers of [_get_sp3_file]. *)
Inductive orbit_type : Type := final | rapid | ultra.

Inductive warning : Type :=
  (** "orbit information not available for {svid} on {day}" *)
  | OrbitNotAvailable (svid day : string)
  (** "Orbits available for {svid} on {day}, however a valid dictionary
      wasn't found at {time}" *)
  | NoValidDictionary (svid day : string) (time : Z)
  (** "final SP3 file not available, using rapid" *)
  | FinalNotAvailable
  (** "rapid SP3 file not available, using ultra (GPS + GLONASS only)" *)
  | RapidNotAvailable.

Inductive event : Type :=
  | Warn (w : warning)
  | GetSp3File (date : string) (ty : orbit_type).

(** [orbits] is [self.orbits]; [stored] is the content of the package
    directory [data.orbits], by file name (a record is kept as the model it
    decodes to); [trace] is the history of warnings and acquisition
    attempts, oldest first. *)
Record world : Type := World {
  orbits : gmap string day_model;
  stored : gmap string day_model;
  trace : list event;
}.

(** The object just created, with an empty package directory. *)
Definition fresh : world := World ∅ ∅ [].

Definition M (A : Type) : Type := world → res A * world.

#[global] Instance M_ret : MRet M := λ _ a σ, (Ok a, σ).
#[global] Instance M_bind : MBind M := λ _ _ f c σ,
  match c σ with
  | (Ok a, σ') => f a σ'
  | (Raise e, σ') => (Raise e, σ')
  end.

Definition lift {A : Type} (r : res A) : M A := λ σ, (r, σ).

(** The world with more events in its trace. *)
Definition logged (σ : world) (evs : list event) : world :=
  World (orbits σ) (stored σ) (trace σ ++ evs).

Definition emit (e : event) : M unit := λ σ, (Ok (), logged σ [e]).

Definition warn (w : warning) : M unit := emit (Warn w).

(** Computations that only read the world and issue warnings. *)
Definition is_warn (ev : event) : Prop :=
  match ev with
  | Warn _ => True
  | GetSp3File _ _ => False
  end.

Definition warns_only {A : Type} (c : M A) : Prop :=
  ∀ σ, ∃ r evs, c σ = (r, logged σ evs) ∧ Forall is_warn evs.

(** [try: body except: handler] with a bare [except]. *)
Definition try_except {A : Type} (body handler : M A) : M A := λ σ,
  match body σ with
  | (Ok a, σ') => (Ok a, σ')
  | (Raise _, σ') => handler σ'
  end.

Fixpoint forM_ {A : Type} (f : A → M unit) (l : list A) : M unit :=
  match l with
  | [] => mret ()
  | a :: l' => f a ;; forM_ f l'
  end.

Fixpoint foldM_M {A B : Type} (f : A → B → M A) (l : list B) (a : A) : M A :=
  match l with
  | [] => mret a
  | b :: l' => a' ← f a b; foldM_M f l' a'
  end.

Fixpoint mapM {A B : Type} (f : A → M B) (l : list A) : M (list B) :=
  match l with
  | [] => mret []
  | a :: l' => b ← f a; bs ← mapM f l'; mret (b :: bs)
  end.

Definition get_orbits : M (gmap string day_model) := λ σ, (Ok (orbits σ), σ).

(** [self.orbits[day] = data_var] *)
Definition set_orbit (day : string) (data_var : day_model) : M unit :=
  λ σ, (Ok (), World (<[day := data_var]> (orbits σ)) (stored σ) (trace σ)).

Definition _get_filename (day : string) : string :=
  "orbits_" +:+ day +:+ ".json".

(** The property [metadata]: the second piece of every file name that starts
    with orbits_. *)
Definition day_of_filename (f : string) : option string :=
  if String.prefix "orbits_" f then re_split f !! 1%nat else None.

Definition persisted_days (σ : world) : gset string :=
  list_to_set (omap day_of_filename (elements (dom (stored σ)))).

Definition metadata : M (gset string) := λ σ, (Ok (persisted_days σ), σ).

(** [open_binary] raises OSError when the file is absent. *)
Definition _load_orbit (day : string) : M day_model := λ σ,
  match stored σ !! _get_filename day with
  | Some data_var => (Ok data_var, σ)
  | None => (Ok ∅, σ)
  end.

Definition _save_orbit (day : string) (data_var : day_model) : M unit :=
  λ σ, (Ok (),
        World (orbits σ) (<[_get_filename day := data_var]> (stored σ)) (trace σ)).

Definition key_le (a b : Z * poly_dict) : Prop := a.1 ≤ b.1.

#[global] Instance key_le_dec : RelDecision key_le.
Proof. intros a b. unfold key_le. apply _. Defined.

(** ** Model updater *)

Section Updater.
(** The acquisition collaborator: [_get_sp3_file date orbit_type] fetches and
    decompresses a product, or raises; [_get_sp3_dataframe] parses its text.
    Both are kept as parameters; the trace records every call of the
    first. *)
Variable _get_sp3_file : string → orbit_type → res string.
Variable _get_sp3_dataframe : string → res (list sp3_row).

Definition call_get_sp3_file (date : string) (ty : orbit_type) : M string :=
  emit (GetSp3File date ty) ;; lift (_get_sp3_file date ty).

(** The nested [try]/[except] of [_update_orbits] that binds [sp3]. *)
Definition acquire (day : string) : M string :=
  try_except (call_get_sp3_file day final)
    (warn FinalNotAvailable ;;
     try_except (call_get_sp3_file day rapid)
       (warn RapidNotAvailable ;;
        call_get_sp3_file day ultra)).

(** [OrderedDict(sorted(dic.items()))]: the keys of a dict are distinct, so
    the items are ordered by key. *)
Definition sort_items (dic : window_map) : window_map :=
  merge_sort key_le dic.

(** Body of [for day in missing_days]. *)
Definition build_day (day : string) : M unit :=
  sp3 ← acquire day;
  df ← lift (_get_sp3_dataframe sp3);
  unsorted_orbit ← lift (_create_orbit df);
  let orbit_dic : day_model := sort_items <$> unsorted_orbit in
  _save_orbit day orbit_dic.

(** Body of [for day in days_]. *)
Definition cache_day (day : string) : M unit :=
  orbs ← get_orbits;
  if decide (day ∈ dom orbs) then mret ()
  else data_var ← _load_orbit day; set_orbit day data_var.

Definition _update_orbits (days : list string) : M unit :=
  let days_ : gset string := list_to_set days in
  md ← metadata;
  let missing_days := days_ ∖ md in
  forM_ build_day (elements missing_days) ;;
  forM_ cache_day (elements days_).

End Updater.

(** ** Position evaluator *)

(** The arrays the evaluator returns: shape (n,) or shape (n, 3). *)
Inductive ndarray : Type :=
  | Arr1 (v : list float)
  | Arr2 (rows : list (list float)).

(** [np.array(rows)] for a list of rows of three floats: the empty list
    gives an array of shape (0,). *)
Definition np_array (rows : list (list float)) : ndarray :=
  match rows with
  | [] => Arr1 []
  | _ => Arr2 rows
  end.

(** [numpy.polynomial.polynomial.polyval(x, c)] at a scalar [x]:
    [c0 = c[-1] + x*0], then [c0 = c[-i] + c0*x] for i = 2 .. len(c). *)
Definition polyval (x : float) (c : list float) : res float :=
  match rev c with
  | [] => Raise IndexError
  | cn :: cs =>
      Ok (fold_left (λ c0 ci, fadd ci (fmul c0 x)) cs (fadd cn (fmul x (of_int 0))))
  end.

(** [predict_dim(dim)] for the coefficients, scale and midpoint of [dim]. *)
Definition predict_dim (scaled_time : float) (coef : list float) (sc md : float)
    : res float :=
  v ← polyval scaled_time coef; Ok (fadd (fmul v sc) md).

(** The branch of [predict] that evaluates the window. *)
Definition evaluate (poly_dict : poly_dict) (time : Z) : res (list float) :=
  let scaled_time :=
    fdiv (fsub (of_int time) (v_tm (mid poly_dict))) (v_tm (scale poly_dict)) in
  px ← predict_dim scaled_time (coef_x poly_dict)
         (v_x (scale poly_dict)) (v_x (mid poly_dict));
  py ← predict_dim scaled_time (coef_y poly_dict)
         (v_y (scale poly_dict)) (v_y (mid poly_dict));
  pz ← predict_dim scaled_time (coef_z poly_dict)
         (v_z (scale poly_dict)) (v_z (mid poly_dict));
  Ok [px; py; pz].

(** [predict(i, time)], closed over [orbit], [svid] and [day]. *)
Definition predict (orbit : window_map) (svid day : string) (i time : Z)
    : M (list float) :=
  kv ← lift (py_index orbit i);
  let poly_dict := kv.2 in
  if decide (time > ub poly_dict ∨ time < lb poly_dict) then
    warn (NoValidDictionary svid day time) ;; mret [nan; nan; nan]
  else lift (evaluate poly_dict time).

(** A window with coefficients: what the fitter writes, a [poly1d] having
    at least one coefficient. *)
Definition wf_window (w : poly_dict) : Prop :=
  coef_x w ≠ [] ∧ coef_y w ≠ [] ∧ coef_z w ≠ [].

(** The index chosen for one query time: [close], [lower], [upper], the two
    distances and [np.where(lower_diff < upper_diff, lower, upper)]. *)
Definition nearest (keys_int : list Z) (time : Z) : res Z :=
  let close := searchsorted keys_int time in
  let lower := Z.max 0 (close - 1) in
  let upper := Z.min (Z.of_nat (length keys_int) - 1) close in
  kl ← py_index keys_int lower;
  ku ← py_index keys_int upper;
  let lower_diff := Z.abs (kl - time) in
  let upper_diff := Z.abs (ku - time) in
  Ok (if decide (lower_diff < upper_diff) then lower else upper).

(** [for x in l: ys.append(f(x))] in [res]. *)
Fixpoint mapR {A B : Type} (f : A → res B) (l : list A) : res (list B) :=
  match l with
  | [] => Ok []
  | a :: l' => b ← f a; bs ← mapR f l'; Ok (b :: bs)
  end.

(** [times] is a float64 array, as the docstring of [_locate_sat] has it
    (time : float), so that [np.ones_like(times)] can be filled with NaN. *)
Definition _locate_sat_vectorised (day : string) (times : list Z) (svid : string)
    : M ndarray :=
  orbs ← get_orbits;
  match orbs !! day ≫= (.!! svid) with
  | None =>
      warn (OrbitNotAvailable svid day) ;;
      mret (Arr1 ((λ _, nan) <$> times))
  | Some orbit =>
      let keys_int := fst <$> orbit in
      idx ← lift (mapR (nearest keys_int) times);
      rows ← mapM (λ it, predict orbit svid day it.1 it.2) (zip idx times);
      mret (np_array rows)
  end.

(** One row of a query batch: the entries of [day], [time] and [svid] at one
    position. *)
Record query : Type := Query { q_day : string; q_time : Z; q_svid : string }.

(** The rows [output[mask, :]] receives from [result], by numpy's
    broadcasting of [result] to the shape (m, 3). *)
Definition broadcast_rows (m : nat) (result : ndarray) : res (list (list float)) :=
  match result with
  | Arr2 rows =>
      if decide (length rows = m) then Ok rows
      else match rows with
           | [r] => Ok (replicate m r)
           | _ => Raise ValueError
           end
  | Arr1 v =>
      match v with
      | [a] => Ok (replicate m [a; a; a])
      | [_; _; _] => Ok (replicate m v)
      | _ => Raise ValueError
      end
  end.

(** Writes [vals], in order, at the rows of [output] selected by [mask]. *)
Fixpoint scatter (output : list (list float)) (mask : list bool)
    (vals : list (list float)) : list (list float) :=
  match output, mask with
  | o :: output', b :: mask' =>
      if b then
        match vals with
        | v :: vals' => v :: scatter output' mask' vals'
        | [] => o :: scatter output' mask' []
        end
      else o :: scatter output' mask' vals
  | _, _ => output
  end.

(** [output[mask, :] = result] *)
Definition assign_masked (output : list (list float)) (mask : list bool)
    (result : ndarray) : res (list (list float)) :=
  vals ← broadcast_rows (length (filter (λ b, b = true) mask)) result;
  Ok (scatter output mask vals).

Definition _locate_sat (qs : list query) : M (list (list float)) :=
  let output := (λ _, [nan; nan; nan]) <$> qs in
  let day_unique := np_unique (q_day <$> qs) in
  let svid_unique := np_unique (q_svid <$> qs) in
  foldM_M (λ output d,
    foldM_M (λ output s,
      let mask := (λ q, bool_decide (q_day q = d ∧ q_svid q = s)) <$> qs in
      let times := q_time <$> filter (λ q, q_day q = d ∧ q_svid q = s) qs in
      result ← _locate_sat_vectorised d times s;
      lift (assign_masked output mask result))
    svid_unique output)
  day_unique output.

(** ** Frames for the examples *)

(** A frame of [n] rows of one satellite on one day, at 300 ns steps, with
    arbitrary coordinates. *)
Definition sp3_frame (date svid : string) (n : nat) (xs ys zs : nat → float)
    : list sp3_row :=
  (λ k : nat, Sp3Row date (300 * Z.of_nat k) svid (xs k) (ys k) (zs k)) <$> seq 0 n.

(** The window over the rows [o .. o+7] of that frame. *)
Definition window_at (xs ys zs : nat → float) (o : nat) : poly_dict :=
  let s := λ k : nat,
    Sample (300 * Z.of_nat (o + k)) (xs (o + k)%nat) (ys (o + k)%nat) (zs (o + k)%nat) in
  let scaled_data :=
    (λ r, vec4_div (vec4_sub (row r) (row (s 3%nat)))
                   (vec4_sub (row (s 7%nat)) (row (s 0%nat)))) <$> (s <$> seq 0 8) in
  {| lb := tm (s 0%nat); ub := tm (s 7%nat); mid := row (s 3%nat);
     scale := vec4_sub (row (s 7%nat)) (row (s 0%nat));
     coef_x := coefs scaled_data v_x;
     coef_y := coefs scaled_data v_y;
     coef_z := coefs scaled_data v_z |}.

End Model.

Abbreviation window_map := (list (Z * poly_dict)).
Abbreviation day_model := (gmap string (list (Z * poly_dict))).

(** ** Exact arithmetic, for examples

    Rationals with one extra value for NaN; a division by zero gives NaN.
    No rounding takes place, what IEEE arithmetic does not promise; the
    instance only serves to run the definitions on concrete inputs. *)

Module Exact.

Definition num : Type := option Q.

Definition op2 (f : Q → Q → Q) (a b : num) : num :=
  match a, b with
  | Some p, Some q => Some (Qred (f p q))
  | _, _ => None
  end.

Definition div (a b : num) : num :=
  match a, b with
  | Some p, Some q => if Qeq_bool q 0 then None else Some (Qred (Qdiv p q))
  | _, _ => None
  end.

Definition int (n : Z) : num := Some (inject_Z n).

(** Polynomials as lists of coefficients, lowest degree first. *)
Fixpoint padd (p q : list num) : list num :=
  match p, q with
  | [], _ => q
  | _, [] => p
  | a :: p', b :: q' => op2 Qplus a b :: padd p' q'
  end.

Definition pscale (c : num) (p : list num) : list num := op2 Qmult c <$> p.

(** [p * (X - r)] *)
Definition pmul_linear (p : list num) (r : num) : list num :=
  padd (int 0 :: p) (pscale (op2 Qminus (int 0) r) p).

(** The j-th basis polynomial of the nodes [xs]. *)
Definition basis (xs : list num) (j : nat) (xj : num) : list num :=
  fold_left (λ pt kx,
               if decide (kx.1 = j) then pt
               else (λ c, div c (op2 Qminus xj kx.2)) <$> pmul_linear pt kx.2)
            (imap pair xs) [int 1].

Definition interpolate (xs ws : list num) : list num :=
  rev (fold_left padd
         (imap (λ j xw, pscale xw.2 (basis xs j xw.1)) (zip xs ws)) []).

#[global] Instance exact_float : FloatOps := {|
  float := num;
  nan := None;
  of_int := int;
  fadd := op2 Qplus;
  fsub := op2 Qminus;
  fmul := op2 Qmult;
  fdiv := div;
  lagrange := interpolate;
|}.

End Exact.

(** ** Data for the examples *)

(** Coordinates, and a series at 300 ns steps. *)
Definition ex_x (k : nat) : Exact.num := Exact.int (Z.of_nat (k * k)).
Definition ex_y (k : nat) : Exact.num := Exact.int (2 * Z.of_nat k + 1).
Definition ex_z (k : nat) : Exact.num := Exact.int (Z.of_nat (k * k * k) - 5).

Definition ex_series (n : nat) : list sample :=
  (λ k : nat, Sample (300 * Z.of_nat k) (ex_x k) (ex_y k) (ex_z k)) <$> seq 0 n.

(** The window map that the twelve-sample frame gives. *)
Definition ex_orbit : window_map :=
  [(900, window_at ex_x ex_y ex_z 0); (2100, window_at ex_x ex_y ex_z 4)].

(** A store that holds that window map. *)
Definition ex_world : world :=
  World {[ "2020042"%string := {[ "G01"%string := ex_orbit ]} ]} ∅ [].

(** A collaborator without network, and a directory that holds one file
    named after the day 2020042 which is not its record. *)
Definition no_network (date : string) (ty : orbit_type) : res string :=
  Raise URLError.

Definition no_frame (sp3 : string) : res (list sp3_row) := Ok [].

Definition ex_stray : world :=
  World ∅ {[ "orbits_2020042.txt"%string := ∅ ]} [].

(** ** Notions used to state further properties *)

(** A day identifier that holds neither of the separators of
    [re.split(r"_|\.", f)]. *)
Fixpoint no_sep (s : string) : bool :=
  match s with
  | EmptyString => true
  | String c s' => negb (is_sep c) && no_sep s'
  end.







(** The products asked for in a piece of trace, in order. *)
Definition fetches (evs : list event) : list (string * orbit_type) :=
  omap (λ ev, match ev with
              | GetSp3File date ty => Some (date, ty)
              | Warn _ => None
              end) evs.

(** A day's model as the updater writes it: every window map is non-empty
    and has strictly increasing midpoints. *)
Definition ordered_model {FO : FloatOps} (m : day_model) : Prop :=
  ∀ s dic, m !! s = Some dic → dic ≠ [] ∧ Sorted Z.lt (fst <$> dic).

(** The value that the nested [try]/[except] of [_update_orbits] binds to
    [sp3], or the exception of the last attempt. *)
Definition first_product (get_file : string → orbit_type → res string)
    (day : string) : res string :=
  match get_file day final with
  | Ok sp3 => Ok sp3
  | Raise _ =>
      match get_file day rapid with
      | Ok sp3 => Ok sp3
      | Raise _ => get_file day ultra
      end
  end.

(** The record that one pass of the first loop of [_update_orbits] computes
    for a day, before it is saved: its effects apart, the body of the
    loop. *)
Definition day_record {FO : FloatOps}
    (get_file : string → orbit_type → res string)
    (get_frame : string → res (list sp3_row)) (day : string) : res day_model :=
  match first_product get_file day with
  | Raise e => Raise e
  | Ok sp3 =>
      match get_frame sp3 with
      | Raise e => Raise e
      | Ok df =>
          match _create_orbit df with
          | Raise e => Raise e
          | Ok unsorted_orbit => Ok (sort_items <$> unsorted_orbit)
          end
      end
  end.

(** A frame of twelve rows of the satellite G01, and one of eight. *)
Definition ex_frame : list sp3_row := sp3_frame "2020042" "G01" 12 ex_x ex_y ex_z.

(** A collaborator without final products, whose other products parse into
    the frame of twelve rows. *)
Definition ex_network (date : string) (ty : orbit_type) : res string :=
  match ty with
  | final => Raise URLError
  | rapid | ultra => Ok "sp3"%string
  end.

Definition ex_parse (sp3 : string) : res (list sp3_row) := Ok ex_frame.

(** A directory that holds the record of the day before, an empty model. *)
Definition ex_yesterday : world :=
  World ∅ {[ "orbits_2020041.json"%string := ∅ ]} [].

(** ** The SP3 products: names, decompression and parser *)

(** [s.rsplit(".", maxsplit=1)] *)
Fixpoint rsplit_dot (s : string) : list string :=
  match s with
  | EmptyString => [EmptyString]
  | String c s' =>
      match rsplit_dot s' with
      | [last] =>
          if decide (c = "."%char) then [EmptyString; last] else [String c last]
      | head :: last => String c head :: last
      | [] => [String c EmptyString]
      end
  end.

(** [_sp3_filename[orbit_type](x)]; [week] and [day] stand for the strings
    [str(_sp3_filename_date_conversion(x)["week"][0])] and
    [str(_sp3_filename_date_conversion(x)["day"][0])]. *)
Definition _sp3_filename (week day : string) (orbit_type : orbit_type)
    (x : string) : string :=
  match orbit_type with
  | ultra => "esu" +:+ week +:+ day +:+ "_00.sp3.Z"
  | rapid => "GBM0MGXRAP_" +:+ x +:+ "0000_01D_05M_ORB.SP3.gz"
  | final => "ESA0MGNFIN_" +:+ x +:+ "0000_01D_05M_ORB.SP3.gz"
  end.

Inductive codec : Type :=
  (** [gzip.decompress] *)
  | gzip
  (** [unlzw3.unlzw] *)
  | unlzw.

(** The choice that [_get_sp3_file] makes from the extension of the file
    name. *)
Definition decompressor (filename : string) : res codec :=
  match rsplit_dot filename !! 1%nat with
  | None => Raise IndexError
  | Some extension =>
      Ok (if decide (extension = "gz"%string) then gzip else unlzw)
  end.

(** What the parser ends with: a value, an exception of [exn], or the
    UnboundLocalError that Python raises when [date] is read before an
    epoch line has assigned it. *)
Inductive outcome (A : Type) : Type :=
  | Returns (a : A)
  | Raises (e : exn)
  | UnboundLocalError.
Arguments Returns {A} a.
Arguments Raises {A} e.
Arguments UnboundLocalError {A}.

(** [line[:2] == "* "] and [line[0] == "P"], the latter for a line that is
    not empty. *)
Definition is_epoch_line (line : string) : bool :=
  bool_decide (String.substring 0 2 line = "* "%string).

Definition is_position_line (line : string) : bool :=
  match line with
  | EmptyString => false
  | String c _ => bool_decide (c = "P"%char)
  end.

Section Parser.
Context {FO : FloatOps}.

(** A row of the frame that [_get_sp3_dataframe] returns. *)
Record df_row : Type := DfRow {
  c_epoch : Z;
  c_date : string;
  c_time : Z;
  c_svid : string;
  c_x : float;
  c_y : float;
  c_z : float;
  c_clockerror : float;
}.

(** The locals of the loop: [epoch], [date] and [time], which are unbound
    until the first epoch line, and [results]. *)
Record parser : Type := Parser {
  epoch : Z;
  stamp : option (string * Z);
  results : list df_row;
}.

(** The three readers of a line, which raise on a line they cannot read:
    [get_date] and [get_time] build on [int] and [pd.Timestamp], [getXYS] on
    [str.split] and [float]. *)
Variable get_date : string → res string.
Variable get_time : string → res Z.
Variable getXYS : string → res (string * float * float * float * float).

(** [if line[:2] == "* ": ...] *)
Definition read_epoch (st : parser) (line : string) : outcome parser :=
  if is_epoch_line line then
    match get_date line with
    | Raise e => Raises e
    | Ok date =>
        match get_time line with
        | Raise e => Raises e
        | Ok time => Returns (Parser (epoch st + 1) (Some (date, time)) (results st))
        end
    end
  else Returns st.

(** [if line[0] == "P": ...]; the index raises on an empty line. *)
Definition read_position (st : parser) (line : string) : outcome parser :=
  match line with
  | EmptyString => Raises IndexError
  | String _ _ =>
      if is_position_line line then
        match getXYS line with
        | Raise e => Raises e
        | Ok (svid, x, y, z, clockError) =>
            match stamp st with
            | None => UnboundLocalError
            | Some (date, time) =>
                Returns (Parser (epoch st) (stamp st)
                           (results st
                            ++ [DfRow (epoch st) date time svid x y z clockError]))
            end
        end
      else Returns st
  end.

Definition parse_line (st : parser) (line : string) : outcome parser :=
  match read_epoch st line with
  | Returns st' => read_position st' line
  | Raises e => Raises e
  | UnboundLocalError => UnboundLocalError
  end.

(** [for line in lines: ...] *)
Fixpoint parse_lines (lines : list string) (st : parser) : outcome parser :=
  match lines with
  | [] => Returns st
  | line :: lines' =>
      match parse_line st line with
      | Returns st' => parse_lines lines' st'
      | Raises e => Raises e
      | UnboundLocalError => UnboundLocalError
      end
  end.

(** [_get_sp3_dataframe(sp3)], for [lines = sp3.splitlines()]. *)
Definition _get_sp3_dataframe (lines : list string) : outcome (list df_row) :=
  match parse_lines lines (Parser 0 None []) with
  | Returns st => Returns (results st)
  | Raises e => Raises e
  | UnboundLocalError => UnboundLocalError
  end.

End Parser.

(** Readers and lines for the examples. *)
Definition ex_get_date (row : string) : res string :=
  Ok (String.substring 3 4 row +:+ "042").

Definition ex_get_time (row : string) : res Z := Ok 0.

Definition ex_getXYS (row : string)
    : res (string * Exact.num * Exact.num * Exact.num * Exact.num) :=
  Ok (String.substring 1 3 row, Exact.int 1, Exact.int 2, Exact.int 3, Exact.int 0).

Definition ex_lines : list string :=
  ["#cP2020  2 11  0  0  0.00000000";
   "*  2020  2 11  0  0  0.00000000";
   "PG01  15000.000000  -8000.000000  20000.000000    100.000000";
   "PG02 -12000.000000  14000.000000  18000.000000   -200.000000";
   "EOF"]%string.

(** * Properties of the orbit fitter *)

Section Fitter.
Context {FO : FloatOps}.

Lemma slice_length (i : Z) (alldata : list sample) :
  3 ≤ i ≤ Z.of_nat (length alldata) - 5 →
  length (take 8 (drop (Z.to_nat (i - 3)) alldata)) = 8%nat.
Proof. intros Hi. rewrite length_take, length_drop. lia. Qed.

Lemma slice_lookup (i : Z) (alldata : list sample) (k : nat) :
  (k < 8)%nat →
  take 8 (drop (Z.to_nat (i - 3)) alldata) !! k
  = alldata !! (Z.to_nat (i - 3) + k)%nat.
Proof. intros Hk. rewrite lookup_take_lt by done. apply lookup_drop. Qed.

(** Names the eight rows of the slice [iloc[i-3:i+5]], whose length [Hlen]
    gives. *)
Ltac eight_rows Hlen :=
  match goal with
  | |- context [take 8 (drop ?n ?l)] =>
      destruct (take 8 (drop n l))
        as [|s0 [|s1 [|s2 [|s3 [|s4 [|s5 [|s6 [|s7 [|s8 rest]]]]]]]]];
      try discriminate Hlen
  end.

Lemma poly_lagrange_window_ok (i : Z) (alldata : list sample) :
  3 ≤ i ≤ Z.of_nat (length alldata) - 5 →
  ∃ kv, _poly_lagrange i alldata = Ok kv.
Proof.
  intros Hi.
  pose proof (slice_length i alldata Hi) as Hlen.
  unfold _poly_lagrange.
  destruct (decide (i < 3 ∨ i > Z.of_nat (length alldata) - 5)) as [Hbad|_]; [lia|].
  eight_rows Hlen.
  eexists. reflexivity.
Qed.

(** C6: for a centre index [i] with [3 <= i <= len - 5], [_poly_lagrange]
    builds the window from the eight samples at the indices [i-3 .. i+4] and
    from nothing else: [lb] is the time of the first of them, [ub] the time
    of the eighth, [mid] the fourth sample's row (time, x, y, z), [scale] the
    eighth row minus the first, componentwise, and the coefficients are
    those of the Lagrange polynomials through the eight scaled rows. *)
Theorem poly_lagrange_window (i : Z) (alldata : list sample) :
  3 ≤ i ≤ Z.of_nat (length alldata) - 5 →
  ∃ s0 s1 s2 s3 s4 s5 s6 s7 : sample,
    let w := [s0; s1; s2; s3; s4; s5; s6; s7] in
    let scaled_data :=
      (λ s, vec4_div (vec4_sub (row s) (row s3)) (vec4_sub (row s7) (row s0))) <$> w in
    (∀ k : nat, (k < 8)%nat → alldata !! (Z.to_nat (i - 3) + k)%nat = w !! k) ∧
    _poly_lagrange i alldata =
      Ok (tm s3,
          {| lb := tm s0; ub := tm s7;
             mid := row s3;
             scale := vec4_sub (row s7) (row s0);
             coef_x := coefs scaled_data v_x;
             coef_y := coefs scaled_data v_y;
             coef_z := coefs scaled_data v_z |}).
Proof.
  intros Hi.
  pose proof (slice_length i alldata Hi) as Hlen.
  pose proof (λ k Hk, slice_lookup i alldata k Hk) as Hlk.
  unfold _poly_lagrange.
  destruct (decide (i < 3 ∨ i > Z.of_nat (length alldata) - 5)) as [Hbad|_]; [lia|].
  eight_rows Hlen.
  exists s0, s1, s2, s3, s4, s5, s6, s7. split.
  - intros k Hk. symmetry. by apply Hlk.
  - reflexivity.
Qed.

(** What links the fitter to the evaluator, whatever the arithmetic: the
    nodes given to [lagrange] are the scaled times that [evaluate] computes
    at the sample times of the window, and the values are the samples'
    coordinates scaled by the window's [mid] and [scale]. *)
Lemma poly_lagrange_nodes (i key : Z) (alldata : list sample) (win : poly_dict) :
  _poly_lagrange i alldata = Ok (key, win) →
  ∃ data_var : list sample,
    length data_var = 8%nat ∧
    (∀ k : nat, (k < 8)%nat →
                data_var !! k = alldata !! (Z.to_nat (i - 3) + k)%nat) ∧
    let node := λ s, fdiv (fsub (of_int (tm s)) (v_tm (mid win))) (v_tm (scale win)) in
    coef_x win
    = rev (lagrange (node <$> data_var)
             ((λ s, fdiv (fsub (x s) (v_x (mid win))) (v_x (scale win))) <$> data_var)) ∧
    coef_y win
    = rev (lagrange (node <$> data_var)
             ((λ s, fdiv (fsub (y s) (v_y (mid win))) (v_y (scale win))) <$> data_var)) ∧
    coef_z win
    = rev (lagrange (node <$> data_var)
             ((λ s, fdiv (fsub (z s) (v_z (mid win))) (v_z (scale win))) <$> data_var)).
Proof.
  unfold _poly_lagrange.
  destruct (decide (i < 3 ∨ i > Z.of_nat (length alldata) - 5)) as [|Hi]; [done|].
  pose proof (slice_length i alldata ltac:(lia)) as Hlen.
  pose proof (λ k Hk, slice_lookup i alldata k Hk) as Hlk.
  eight_rows Hlen.
  intros Heq. injection Heq as <- <-.
  exists [s0; s1; s2; s3; s4; s5; s6; s7]. split; [done|]. split; [done|].
  repeat split.
Qed.

Lemma create_orbit_frame_12 (xs ys zs : nat → float) :
  _create_orbit (sp3_frame "2020042" "G01" 12 xs ys zs)
  = Ok {[ "G01"%string :=
            [(900, window_at xs ys zs 0); (2100, window_at xs ys zs 4)] ]}.
Proof. vm_compute. reflexivity. Qed.

(** C4, as amended: twelve samples at the times 0, 300, ..., 3300 give exactly
    two windows, centred at the samples 3 and 7 (keys 900 and 2100); the
    first has [lb = 0] and [ub = 2100], the second, built from the samples
    4 .. 11, has [lb = 1200] and [ub = 3300]. *)
Theorem create_orbit_12_samples (xs ys zs : nat → float) :
  ∃ w1 w2 : poly_dict,
    _create_orbit (sp3_frame "2020042" "G01" 12 xs ys zs)
    = Ok {[ "G01"%string := [(900, w1); (2100, w2)] ]} ∧
    mid w1 = Vec4 (of_int 900) (xs 3%nat) (ys 3%nat) (zs 3%nat) ∧
    mid w2 = Vec4 (of_int 2100) (xs 7%nat) (ys 7%nat) (zs 7%nat) ∧
    lb w1 = 0 ∧ ub w1 = 2100 ∧ lb w2 = 1200 ∧ ub w2 = 3300.
Proof.
  exists (window_at xs ys zs 0), (window_at xs ys zs 4).
  split; [apply create_orbit_frame_12|].
  repeat split.
Qed.

(** *** Series too short for a window *)

Lemma py_range_length (start stop step : Z) :
  length (py_range start stop step)
  = Z.to_nat ((stop - start + step - 1) / step).
Proof. unfold py_range. by rewrite length_fmap, length_seq. Qed.

Lemma py_range_elem (start stop step i : Z) :
  0 < step → i ∈ py_range start stop step → start ≤ i < stop.
Proof.
  intros Hstep (k & -> & Hk)%list_elem_of_fmap.
  apply elem_of_seq in Hk.
  assert (Z.of_nat k + 1 ≤ (stop - start + step - 1) / step) as Hle by lia.
  assert (step * ((stop - start + step - 1) / step) ≤ stop - start + step - 1)
    by (apply Z.mul_div_le; lia).
  nia.
Qed.

Lemma centre_indices_short (n : Z) :
  n ≤ 8 → centre_indices n = Raise IndexError.
Proof.
  intros Hn. unfold centre_indices.
  assert (py_range 3 (n - 5) 4 = []) as ->; [|done].
  apply length_zero_iff_nil. rewrite py_range_length.
  assert ((n - 5 - 3 + 4 - 1) / 4 ≤ 0); [|lia].
  apply Z.lt_succ_r, Z.div_lt_upper_bound; lia.
Qed.

Lemma centre_indices_long (n : Z) :
  9 ≤ n →
  ∃ idxs, centre_indices n = Ok idxs ∧ idxs ≠ [] ∧
          ∀ i, i ∈ idxs → 3 ≤ i ≤ n - 5.
Proof.
  intros Hn. unfold centre_indices.
  assert (py_range 3 (n - 5) 4 ≠ []) as Hne.
  { intros Hnil%length_zero_iff_nil. rewrite py_range_length in Hnil.
    assert (1 ≤ (n - 5 - 3 + 4 - 1) / 4); [|lia].
    apply Z.div_le_lower_bound; lia. }
  destruct (last (py_range 3 (n - 5) 4)) as [l|] eqn:Hlast.
  - eexists. split; [done|]. split.
    + case_decide; [|done]. by destruct (py_range _ _ _).
    + intros i Hi.
      assert (i ∈ py_range 3 (n - 5) 4 ∨ i = n - 5) as [Hr| ->]; [|by apply py_range_elem in Hr; lia|lia].
      case_decide; [|by left].
      apply elem_of_app in Hi as [?|Hi]; [by left|]. right. by apply list_elem_of_singleton in Hi.
  - by apply last_None in Hlast.
Qed.

(** A series of at most 8 samples stops the fit with an IndexError. *)
Lemma fit_series_short (orbits : list sample) (dic : window_map) :
  (length orbits ≤ 8)%nat → fit_series orbits dic = Raise IndexError.
Proof.
  intros Hlen. unfold fit_series.
  rewrite centre_indices_short by lia. done.
Qed.

Lemma dict_set_nonempty (k : Z) (v : poly_dict) (d : window_map) :
  dict_set k v d ≠ [].
Proof. destruct d as [|[??]?]; simpl; [done|]. by case_decide. Qed.

Lemma fit_windows_ok (orbits : list sample) (idxs : list Z) (dic : window_map) :
  (∀ i, i ∈ idxs → 3 ≤ i ≤ Z.of_nat (length orbits) - 5) →
  ∃ dic',
    foldM (λ d i, kv ← _poly_lagrange i orbits; Ok (dict_set kv.1 kv.2 d)) idxs dic
    = Ok dic' ∧ (idxs ≠ [] ∨ dic ≠ [] → dic' ≠ []).
Proof.
  revert dic. induction idxs as [|i idxs IH]; intros dic Hall.
  - exists dic. split; [done|]. by intros [?|?].
  - destruct (poly_lagrange_window_ok i orbits) as [kv Hkv].
    { apply Hall. by left. }
    destruct (IH (dict_set kv.1 kv.2 dic)) as (dic' & Heq & Hne).
    { intros j Hj. apply Hall. by right. }
    exists dic'. split.
    + simpl. rewrite Hkv. simpl. exact Heq.
    + intros _. apply Hne. right. apply dict_set_nonempty.
Qed.

(** A series of at least 9 samples is fitted without an exception and gets
    at least one window. *)
Lemma fit_series_long (orbits : list sample) (dic : window_map) :
  (9 ≤ length orbits)%nat →
  ∃ dic', fit_series orbits dic = Ok dic' ∧ dic' ≠ [].
Proof.
  intros Hlen. unfold fit_series.
  destruct (centre_indices_long (Z.of_nat (length orbits))) as (idxs & -> & Hne & Hall);
    [lia|].
  destruct (fit_windows_ok orbits idxs dic Hall) as (dic' & Heq & Hne').
  exists dic'. split; [exact Heq|]. apply Hne'. by left.
Qed.

(** Five samples: the same IndexError. *)
Example create_orbit_5_samples (xs ys zs : nat → float) :
  _create_orbit (sp3_frame "2020042" "G01" 5 xs ys zs) = Raise IndexError.
Proof. vm_compute. reflexivity. Qed.

(** Nine samples: two windows, centred at the indices 3 and 4. *)
Example create_orbit_9_samples (xs ys zs : nat → float) :
  _create_orbit (sp3_frame "2020042" "G01" 9 xs ys zs)
  = Ok {[ "G01"%string :=
            [(900, window_at xs ys zs 0); (1200, window_at xs ys zs 1)] ]}.
Proof. vm_compute. reflexivity. Qed.

(** C5: a series of exactly 8 samples, enough for the one window centred at
    its index 3, is not fitted: [_create_orbit] raises IndexError. *)
Theorem create_orbit_8_samples (xs ys zs : nat → float) :
  _create_orbit (sp3_frame "2020042" "G01" 8 xs ys zs) = Raise IndexError.
Proof. vm_compute. reflexivity. Qed.

End Fitter.

Lemma poly_lagrange_window_witness :
  3 ≤ 3 ≤ Z.of_nat (length (ex_series 9)) - 5 ∧
  ∃ kv, _poly_lagrange 3 (ex_series 9) = Ok kv.
Proof.
  assert (H : 3 ≤ 3 ≤ Z.of_nat (length (ex_series 9)) - 5)
    by (vm_compute; split; discriminate).
  split; [exact H|].
  destruct (poly_lagrange_window 3 (ex_series 9) H)
    as (s0 & s1 & s2 & s3 & s4 & s5 & s6 & s7 & Hw & Heq).
  eexists. exact Heq.
Defined.

Lemma create_orbit_12_samples_counterexample :
  ¬ ∃ w1 w2 : poly_dict,
      _create_orbit (sp3_frame "2020042" "G01" 12 ex_x ex_y ex_z)
      = Ok {[ "G01"%string := [(900, w1); (2100, w2)] ]} ∧
      lb w1 = 0 ∧ ub w1 = 2100 ∧ lb w2 = 600 ∧ ub w2 = 3300.
Proof.
  intros (w1 & w2 & Heq & _ & _ & Hlb & _).
  rewrite create_orbit_frame_12 in Heq.
  apply (f_equal (λ r : res (gmap string window_map),
                    match r with Ok m => m !! "G01"%string | Raise _ => None end)) in Heq.
  cbv beta iota in Heq.
  rewrite !lookup_singleton_eq in Heq.
  assert (w2 = window_at ex_x ex_y ex_z 4) as -> by congruence.
  change (1200 = 600) in Hlb. discriminate Hlb.
Qed.

(** * Properties of the nearest-window search *)

Section Search.

Implicit Types (a keys : list Z) (v time : Z).

(** The search stays between its bounds, sorted input or not. *)
Lemma bisect_left_range fuel a v (lo hi : nat) :
  (lo ≤ hi)%nat →
  (lo ≤ bisect_left fuel a v lo hi ≤ hi)%nat.
Proof.
  revert lo hi. induction fuel as [|fuel IH]; intros lo hi Hle; cbn [bisect_left]; [lia|].
  case_decide; [|lia].
  pose proof (Nat.div_mod_eq (hi - lo) 2) as Hdiv.
  pose proof (Nat.mod_upper_bound (hi - lo) 2 ltac:(lia)) as Hmod.
  destruct (a !! _) as [am|]; [|lia].
  case_decide.
  - unshelve epose proof (IH (S (lo + (hi - lo) / 2)) hi _); lia.
  - unshelve epose proof (IH lo (lo + (hi - lo) / 2)%nat _); lia.
Qed.

Lemma searchsorted_range a v : 0 ≤ searchsorted a v ≤ Z.of_nat (length a).
Proof.
  unfold searchsorted.
  pose proof (bisect_left_range (length a) a v 0 (length a) ltac:(lia)). lia.
Qed.

Lemma sorted_lookup_le a (i j : nat) (x y : Z) :
  Sorted Z.le a → a !! i = Some x → a !! j = Some y → (i ≤ j)%nat → x ≤ y.
Proof.
  intros Hs%Sorted_StronglySorted; [|intros ???; lia].
  revert i j x y. induction Hs as [|k a Hs IH Hall]; intros i j x y Hi Hj Hij; [done|].
  destruct i as [|i], j as [|j]; simpl in *; simplify_eq; [lia| |lia|].
  - rewrite Forall_forall in Hall. apply Hall.
    by eapply list_elem_of_lookup_2.
  - eapply IH; eauto. lia.
Qed.

Lemma sorted_lookup_lt a (i j : nat) (x y : Z) :
  Sorted Z.lt a → a !! i = Some x → a !! j = Some y → (i < j)%nat → x < y.
Proof.
  intros Hs%Sorted_StronglySorted; [|intros ???; lia].
  revert i j x y. induction Hs as [|k a Hs IH Hall]; intros i j x y Hi Hj Hij; [done|].
  destruct i as [|i], j as [|j]; simpl in *; simplify_eq; [lia| |lia|].
  - rewrite Forall_forall in Hall. apply Hall.
    by eapply list_elem_of_lookup_2.
  - eapply IH; eauto. lia.
Qed.

Lemma sorted_lt_le a : Sorted Z.lt a → Sorted Z.le a.
Proof.
  induction 1 as [|k a Hs IH Hhd]; constructor; [done|].
  destruct Hhd; constructor. lia.
Qed.

(** On a sorted array the search returns the leftmost insertion point: the
    entries before it are smaller than [v], the others are not. *)
Lemma bisect_left_sorted fuel a v (lo hi : nat) :
  Sorted Z.le a →
  (lo ≤ hi ≤ length a)%nat →
  (hi - lo ≤ fuel)%nat →
  (∀ (j : nat) x, (j < lo)%nat → a !! j = Some x → x < v) →
  (∀ (j : nat) x, (hi ≤ j)%nat → a !! j = Some x → v ≤ x) →
  let r := bisect_left fuel a v lo hi in
  (∀ (j : nat) x, (j < r)%nat → a !! j = Some x → x < v) ∧
  (∀ (j : nat) x, (r ≤ j)%nat → a !! j = Some x → v ≤ x).
Proof.
  intros Hs. revert lo hi.
  induction fuel as [|fuel IH]; intros lo hi Hle Hfuel Hlo Hhi; cbn [bisect_left].
  { split; [done|]. intros j x Hj. apply Hhi. lia. }
  case_decide as Hlt; [|split; [done|]; intros j x Hj; apply Hhi; lia].
  pose proof (Nat.div_mod_eq (hi - lo) 2) as Hdiv.
  pose proof (Nat.mod_upper_bound (hi - lo) 2 ltac:(lia)) as Hmod.
  set (m := (lo + (hi - lo) / 2)%nat) in *.
  destruct (a !! m) as [am|] eqn:Ham.
  2:{ apply lookup_ge_None in Ham. lia. }
  case_decide as Hcmp.
  - apply IH; [lia|lia| |done].
    intros j x Hj Hx.
    pose proof (sorted_lookup_le a j m x am Hs Hx Ham ltac:(lia)). lia.
  - apply IH; [lia|lia|done|].
    intros j x Hj Hx.
    pose proof (sorted_lookup_le a m j am x Hs Ham Hx ltac:(lia)). lia.
Qed.

Lemma searchsorted_sorted a v :
  Sorted Z.le a →
  (∀ (j : nat) x, Z.of_nat j < searchsorted a v → a !! j = Some x → x < v) ∧
  (∀ (j : nat) x, searchsorted a v ≤ Z.of_nat j → a !! j = Some x → v ≤ x).
Proof.
  intros Hs. unfold searchsorted.
  destruct (bisect_left_sorted (length a) a v 0 (length a) Hs) as [H1 H2];
    [lia|lia|intros; lia| |].
  { intros j x Hj Hx. apply lookup_lt_Some in Hx. lia. }
  split; intros j x Hj; [apply H1|apply H2]; lia.
Qed.

(** Between two neighbours the insertion point is the upper one. *)
Lemma searchsorted_between keys (j : nat) (kj kj1 : Z) time :
  Sorted Z.le keys →
  keys !! j = Some kj → keys !! S j = Some kj1 →
  kj < time ≤ kj1 →
  searchsorted keys time = Z.of_nat (S j).
Proof.
  intros Hs Hj Hj1 Ht.
  destruct (searchsorted_sorted keys time Hs) as [H1 H2].
  destruct (Z.lt_trichotomy (searchsorted keys time) (Z.of_nat (S j)))
    as [Hlt|[Heq|Hgt]]; [|done|].
  - specialize (H2 j kj ltac:(lia) Hj). lia.
  - specialize (H1 (S j) kj1 ltac:(lia) Hj1). lia.
Qed.

Lemma py_index_lookup {A : Type} (l : list A) (i : Z) :
  0 ≤ i < Z.of_nat (length l) →
  ∃ x, py_index l i = Ok x ∧ l !! Z.to_nat i = Some x.
Proof.
  intros Hi. unfold py_index.
  destruct (decide (i < 0)); [lia|].
  destruct (decide (0 ≤ i < Z.of_nat (length l))); [|lia].
  destruct (l !! Z.to_nat i) as [x|] eqn:Hx; [by exists x|].
  apply lookup_ge_None in Hx. lia.
Qed.

Lemma py_index_nat {A : Type} (l : list A) (j : nat) (x : A) :
  l !! j = Some x → py_index l (Z.of_nat j) = Ok x.
Proof.
  intros Hx. pose proof (lookup_lt_Some _ _ _ Hx).
  destruct (py_index_lookup l (Z.of_nat j)) as (y & -> & Hy); [lia|].
  rewrite Nat2Z.id in Hy. congruence.
Qed.

(** The chosen index is one of the two clamped candidates. *)
Lemma nearest_candidates keys time :
  keys ≠ [] →
  let close := searchsorted keys time in
  let lower := Z.max 0 (close - 1) in
  let upper := Z.min (Z.of_nat (length keys) - 1) close in
  ∃ i, nearest keys time = Ok i ∧ (i = lower ∨ i = upper) ∧
       0 ≤ i ≤ Z.of_nat (length keys) - 1.
Proof.
  intros Hne. simpl. unfold nearest.
  pose proof (searchsorted_range keys time) as Hr.
  assert (0 < Z.of_nat (length keys)) as Hlen by (destruct keys; [done|simpl; lia]).
  set (close := searchsorted keys time) in *.
  destruct (py_index_lookup keys (Z.max 0 (close - 1))) as (kl & -> & _); [lia|].
  destruct (py_index_lookup keys (Z.min (Z.of_nat (length keys) - 1) close))
    as (ku & -> & _); [lia|].
  simpl. eexists. split; [done|]. case_decide; split; auto; lia.
Qed.

End Search.

Section Selection.
Context {FO : FloatOps}.

(** C10: in a non-empty window map the search never leaves the range of
    valid indices: the index it returns lies in [0, n-1] and reads a window.
    When the map is ordered, a time before the first midpoint selects the
    first window and a time after the last midpoint selects the last one. *)
Theorem nearest_in_range (orbit : window_map) (time : Z) :
  orbit ≠ [] →
  ∃ (i : Z) (kv : Z * poly_dict),
    nearest (fst <$> orbit) time = Ok i ∧
    0 ≤ i ≤ Z.of_nat (length orbit) - 1 ∧
    py_index orbit i = Ok kv ∧
    (Sorted Z.le (fst <$> orbit) →
       (∀ k, head (fst <$> orbit) = Some k → time < k → i = 0) ∧
       (∀ k, last (fst <$> orbit) = Some k → k < time →
             i = Z.of_nat (length orbit) - 1)).
Proof.
  intros Hne.
  assert (fst <$> orbit ≠ []) as Hne' by (by destruct orbit).
  destruct (nearest_candidates (fst <$> orbit) time Hne') as (i & Hi & Hcase & Hrange).
  rewrite length_fmap in Hrange, Hcase.
  destruct (py_index_lookup orbit i) as (kv & Hkv & _); [lia|].
  exists i, kv. repeat split; try done; try lia.
  - intros k Hk Hlt.
    destruct (searchsorted_sorted (fst <$> orbit) time H) as [H1 _].
    assert (searchsorted (fst <$> orbit) time = 0) as Hc.
    { pose proof (searchsorted_range (fst <$> orbit) time).
      destruct (decide (0 < searchsorted (fst <$> orbit) time)) as [Hpos|]; [|lia].
      rewrite head_lookup in Hk. specialize (H1 0%nat k Hpos Hk). lia. }
    rewrite Hc in Hcase. lia.
  - intros k Hk Hlt.
    destruct (searchsorted_sorted (fst <$> orbit) time H) as [_ H2].
    pose proof (searchsorted_range (fst <$> orbit) time) as Hr.
    rewrite length_fmap in Hr.
    assert (searchsorted (fst <$> orbit) time = Z.of_nat (length orbit)) as Hc.
    { destruct (decide (searchsorted (fst <$> orbit) time < Z.of_nat (length orbit)))
        as [Hlow|]; [|lia].
      rewrite last_lookup, length_fmap in Hk.
      specialize (H2 (pred (length orbit)) k ltac:(lia) Hk). lia. }
    rewrite Hc in Hcase. lia.
Qed.

End Selection.

Lemma nearest_in_range_witness :
  ex_orbit ≠ [] ∧
  ∃ i, nearest (fst <$> ex_orbit) 100 = Ok i ∧ 0 ≤ i ≤ 1.
Proof.
  assert (ex_orbit ≠ []) as Hne by discriminate.
  split; [exact Hne|].
  destruct (nearest_in_range ex_orbit 100 Hne) as (i & kv & Hi & Hrange & _).
  exists i. split; [exact Hi|exact Hrange].
Defined.

(** C2, as amended: at a time equidistant from two neighbouring midpoints of
    an ordered window map the search selects the upper, later window. *)
Theorem nearest_tie_upper (keys : list Z) (j : nat) (kj kj1 time : Z) :
  Sorted Z.lt keys →
  keys !! j = Some kj → keys !! S j = Some kj1 →
  time - kj = kj1 - time →
  nearest keys time = Ok (Z.of_nat (S j)).
Proof.
  intros Hs Hj Hj1 Heq.
  pose proof (sorted_lt_le keys Hs) as Hle.
  pose proof (sorted_lookup_lt keys j (S j) kj kj1 Hs Hj Hj1 ltac:(lia)) as Hlt.
  pose proof (searchsorted_between keys j kj kj1 time Hle Hj Hj1 ltac:(lia)) as Hc.
  pose proof (lookup_lt_Some _ _ _ Hj1) as Hlen.
  unfold nearest. rewrite Hc.
  replace (Z.max 0 (Z.of_nat (S j) - 1)) with (Z.of_nat j) by lia.
  replace (Z.min (Z.of_nat (length keys) - 1) (Z.of_nat (S j)))
    with (Z.of_nat (S j)) by lia.
  rewrite (py_index_nat keys j kj Hj), (py_index_nat keys (S j) kj1 Hj1).
  simpl. case_decide; [lia|done].
Qed.

Lemma nearest_tie_upper_witness :
  Sorted Z.lt [0; 10] ∧ 5 - 0 = 10 - 5 ∧ nearest [0; 10] 5 = Ok 1.
Proof.
  assert (Sorted Z.lt [0; 10]) as Hs by (repeat constructor).
  split; [exact Hs|]. split; [reflexivity|].
  exact (nearest_tie_upper [0; 10] 0 0 10 5 Hs eq_refl eq_refl eq_refl).
Defined.

Lemma nearest_tie_counterexample :
  Sorted Z.lt [0; 10] ∧ 5 - 0 = 10 - 5 ∧ nearest [0; 10] 5 ≠ Ok 0.
Proof.
  split; [repeat constructor|]. split; [reflexivity|].
  vm_compute. discriminate.
Qed.

(** * Properties of the position evaluator *)

Section Evaluator.
Context {FO : FloatOps}.

Implicit Types (σ : world) (orbit : window_map).

Lemma logged_nil σ : logged σ [] = σ.
Proof. destruct σ. unfold logged. simpl. by rewrite app_nil_r. Qed.

Lemma logged_logged σ evs evs' : logged (logged σ evs) evs' = logged σ (evs ++ evs').
Proof. unfold logged. simpl. by rewrite app_assoc. Qed.

Lemma polyval_ok (x : float) (c : list float) :
  c ≠ [] → ∃ v, polyval x c = Ok v.
Proof.
  intros Hc. unfold polyval.
  destruct (rev c) as [|cn cs] eqn:Hrev; [|by eexists].
  apply (f_equal (@rev _)) in Hrev. rewrite rev_involutive in Hrev. done.
Qed.

(** A window whose three coefficient lists are not empty is evaluated to a
    triple. *)
Lemma evaluate_ok (w : poly_dict) (time : Z) :
  coef_x w ≠ [] → coef_y w ≠ [] → coef_z w ≠ [] →
  ∃ px py pz, evaluate w time = Ok [px; py; pz].
Proof.
  intros Hx Hy Hz. unfold evaluate, predict_dim.
  set (st := fdiv _ _).
  destruct (polyval_ok st _ Hx) as [vx ->].
  destruct (polyval_ok st _ Hy) as [vy ->].
  destruct (polyval_ok st _ Hz) as [vz ->].
  simpl. by eexists _, _, _.
Qed.

(** [predict] at the index [i] of the window [w]: outside of
    [lb w, ub w] it warns and returns NaN, inside, bounds included, it
    evaluates the window and does not warn. *)
Lemma predict_cases orbit (svid day : string) (i time k : Z) (w : poly_dict) σ :
  py_index orbit i = Ok (k, w) →
  (time > ub w ∨ time < lb w →
     predict orbit svid day i time σ
     = (Ok [nan; nan; nan], logged σ [Warn (NoValidDictionary svid day time)])) ∧
  (lb w ≤ time ≤ ub w →
     predict orbit svid day i time σ = (evaluate w time, σ)).
Proof.
  intros Hw. unfold predict, mbind, M_bind, lift. rewrite Hw. cbn [snd].
  split; intros Ht.
  - destruct (decide (time > ub w ∨ time < lb w)) as [_|Hn]; [|tauto].
    reflexivity.
  - destruct (decide (time > ub w ∨ time < lb w)) as [Hout|_]; [lia|].
    reflexivity.
Qed.

Lemma predict_total orbit (svid day : string) (i time k : Z) (w : poly_dict) σ :
  py_index orbit i = Ok (k, w) → wf_window w →
  ∃ r evs,
    predict orbit svid day i time σ = (Ok r, logged σ evs) ∧
    (time > ub w ∨ time < lb w →
       r = [nan; nan; nan] ∧ evs = [Warn (NoValidDictionary svid day time)]) ∧
    (lb w ≤ time ≤ ub w → evaluate w time = Ok r ∧ evs = []).
Proof.
  intros Hw (Hx & Hy & Hz).
  destruct (predict_cases orbit svid day i time k w σ Hw) as [Hout Hin].
  destruct (decide (time > ub w ∨ time < lb w)) as [Ht|Ht].
  - eexists _, _. split; [by apply Hout|]. split; [done|]. lia.
  - destruct (evaluate_ok w time Hx Hy Hz) as (px & py & pz & Hev).
    exists [px; py; pz], []. rewrite logged_nil, Hin, Hev by lia.
    split; [done|]. split; [tauto|done].
Qed.

(** Every query time gets an index when the window map is not empty. *)
Lemma nearest_all orbit (times : list Z) :
  orbit ≠ [] →
  ∃ idx, mapR (nearest (fst <$> orbit)) times = Ok idx ∧
         Forall2 (λ time i, nearest (fst <$> orbit) time = Ok i ∧
                            ∃ kv, py_index orbit i = Ok kv) times idx.
Proof.
  intros Hne. induction times as [|time times (idx & Hidx & Hall)].
  { by exists []. }
  destruct (nearest_candidates (fst <$> orbit) time) as (i & Hi & _ & Hrange).
  { by destruct orbit. }
  rewrite length_fmap in Hrange.
  destruct (py_index_lookup orbit i) as (kv & Hkv & _); [lia|].
  exists (i :: idx). cbn [mapR]. rewrite Hi, Hidx. split; [done|].
  constructor; [|done]. eauto.
Qed.

Lemma predict_rows orbit (svid day : string) (times idx : list Z) σ :
  Forall (λ kv, wf_window kv.2) orbit →
  Forall2 (λ time i, nearest (fst <$> orbit) time = Ok i ∧
                     ∃ kv, py_index orbit i = Ok kv) times idx →
  ∃ rows evs,
    mapM (λ it, predict orbit svid day it.1 it.2) (zip idx times) σ
    = (Ok rows, logged σ evs) ∧
    Forall2 (λ time r,
               ∃ i k w,
                 nearest (fst <$> orbit) time = Ok i ∧
                 py_index orbit i = Ok (k, w) ∧
                 (time > ub w ∨ time < lb w →
                    r = [nan; nan; nan] ∧
                    Warn (NoValidDictionary svid day time) ∈ evs) ∧
                 (lb w ≤ time ≤ ub w → evaluate w time = Ok r))
            times rows.
Proof.
  intros Hwf Hall. revert σ.
  induction Hall as [|time i times idx [Hi [[k w] Hkv]] _ IH]; intros σ.
  { exists [], []. by rewrite logged_nil. }
  assert (wf_window w) as Hw.
  { rewrite Forall_forall in Hwf. apply (Hwf (k, w)).
    unfold py_index in Hkv.
    destruct (decide (0 ≤ _ < _)) as [_|]; [|done].
    destruct (orbit !! _) eqn:Hlk; [|done]. simplify_eq.
    by eapply list_elem_of_lookup_2. }
  destruct (predict_total orbit svid day i time k w σ Hkv Hw)
    as (r & evs & Hp & Hout & Hin).
  destruct (IH (logged σ evs)) as (rows & evs' & Hm & Hrows).
  exists (r :: rows), (evs ++ evs'). split.
  - cbn [zip zip_with mapM]. unfold mbind at 1, M_bind at 1. cbn [fst snd].
    rewrite Hp. unfold mbind at 1, M_bind at 1. rewrite Hm.
    by rewrite logged_logged.
  - constructor.
    + exists i, k, w. split; [done|]. split; [done|]. split.
      * intros Ht. destruct (Hout Ht) as [-> ->]. split; [done|].
        apply elem_of_app. left. by apply list_elem_of_singleton.
      * intros Ht. by destruct (Hin Ht).
    + eapply Forall2_impl; [exact Hrows|]. simpl.
      intros t r' (i' & k' & w' & ? & ? & Hout' & ?).
      exists i', k', w'. split; [done|]. split; [done|]. split; [|done].
      intros Ht. destruct (Hout' Ht). split; [done|].
      apply elem_of_app. by right.
Qed.

(** C7: a batch of query times for a day and a satellite that the store
    holds, with a non-empty window map whose windows have coefficients, is
    answered without an exception, one row per time.  For the window [w]
    that the search selects for a time, the row is (NaN, NaN, NaN), with
    the warning, when the time is greater than [ub w] or smaller than
    [lb w]: nothing is extrapolated.  When [lb w <= time <= ub w], the two
    bounds included, the row is the evaluation of the window. *)
Theorem locate_sat_vectorised_validity (day svid : string) (times : list Z)
    (m : day_model) orbit σ :
  orbits σ !! day = Some m → m !! svid = Some orbit →
  orbit ≠ [] → Forall (λ kv, wf_window kv.2) orbit →
  ∃ rows evs,
    _locate_sat_vectorised day times svid σ = (Ok (np_array rows), logged σ evs) ∧
    length rows = length times ∧
    ∀ (j : nat) time, times !! j = Some time →
      ∃ i k w r,
        nearest (fst <$> orbit) time = Ok i ∧
        py_index orbit i = Ok (k, w) ∧
        rows !! j = Some r ∧
        (time > ub w ∨ time < lb w →
           r = [nan; nan; nan] ∧ Warn (NoValidDictionary svid day time) ∈ evs) ∧
        (lb w ≤ time ≤ ub w → evaluate w time = Ok r).
Proof.
  intros Hm Ho Hne Hwf.
  destruct (nearest_all orbit times Hne) as (idx & Hidx & Hall).
  destruct (predict_rows orbit svid day times idx σ Hwf Hall)
    as (rows & evs & Hrows & Hspec).
  exists rows, evs. split; [|split].
  - unfold _locate_sat_vectorised, mbind at 1, M_bind at 1, get_orbits.
    rewrite Hm. cbn [option_bind mbind]. simpl. rewrite Ho.
    unfold mbind at 1, M_bind at 1, lift. rewrite Hidx.
    unfold mbind at 1, M_bind at 1. rewrite Hrows. reflexivity.
  - symmetry. by eapply Forall2_length.
  - intros j time Hj.
    destruct (Forall2_lookup_l _ _ _ _ _ Hspec Hj)
      as (r & Hr & i & k & w & ? & ? & ? & ?).
    by exists i, k, w, r.
Qed.

(** The branch for a missing day or satellite: one NaN per query time, an
    array of shape (n,), and the warning; no exception. *)
Lemma locate_sat_vectorised_missing (day svid : string) (times : list Z) σ :
  orbits σ !! day ≫= (.!! svid) = None →
  _locate_sat_vectorised day times svid σ
  = (Ok (Arr1 ((λ _, nan) <$> times)),
     World (orbits σ) (stored σ) (trace σ ++ [Warn (OrbitNotAvailable svid day)])).
Proof.
  intros Hnone.
  unfold _locate_sat_vectorised, mbind at 1, M_bind, get_orbits.
  rewrite Hnone. reflexivity.
Qed.

Lemma pd_unique_const (l : list string) (d : string) :
  l ≠ [] → (∀ s, s ∈ l → s = d) → pd_unique l = [d].
Proof.
  unfold pd_unique. destruct l as [|a l]; [done|]. intros _ Hall. simpl.
  assert (a = d) as -> by (apply Hall; by left).
  assert (∀ s, s ∈ l → s = d) as Hl by (intros; apply Hall; by right).
  clear Hall. induction l as [|b l IH]; [done|]. simpl.
  rewrite (Hl b) by (by left).
  rewrite decide_True by (by apply list_elem_of_singleton).
  apply IH. intros; apply Hl; by right.
Qed.

Lemma np_unique_const (l : list string) (d : string) :
  l ≠ [] → (∀ s, s ∈ l → s = d) → np_unique l = [d].
Proof.
  intros Hne Hall. unfold np_unique.
  pose proof (merge_sort_Permutation str_le l) as Hperm.
  apply pd_unique_const.
  - intros Hnil. rewrite Hnil in Hperm. by apply Permutation_nil_l in Hperm.
  - intros s Hs. apply Hall. by rewrite <- Hperm.
Qed.

Lemma scatter_all (output vals : list (list float)) :
  length vals = length output →
  scatter output ((λ _, true) <$> output) vals = vals.
Proof.
  revert vals. induction output as [|o output IH]; intros [|v vals] Hlen;
    simplify_eq/=; [done|]. f_equal. by apply IH.
Qed.

(** A batch made of one group that the store does not hold: the rows come
    back as NaN when the group has one row or three, and the call raises
    ValueError for every other size. *)
Lemma locate_sat_missing_rows (day svid : string) (times : list Z) σ :
  times ≠ [] →
  orbits σ !! day ≫= (.!! svid) = None →
  _locate_sat ((λ t, Query day t svid) <$> times) σ
  = (if decide (length times = 1%nat ∨ length times = 3%nat)
     then Ok (replicate (length times) [nan; nan; nan])
     else Raise ValueError,
     logged σ [Warn (OrbitNotAvailable svid day)]).
Proof.
  intros Hne Hnone. unfold _locate_sat.
  set (qs := (λ t, Query day t svid) <$> times).
  assert (qs ≠ []) as Hqs by (by destruct times).
  rewrite (np_unique_const (q_day <$> qs) day), (np_unique_const (q_svid <$> qs) svid);
    try (by destruct times);
    try (by intros s (q & -> & (t & -> & _)%list_elem_of_fmap)%list_elem_of_fmap).
  cbn [foldM_M]. unfold mbind at 1, M_bind at 1.
  unfold mbind at 1, M_bind at 1. unfold mbind at 1, M_bind at 1.
  assert (filter (λ q, q_day q = day ∧ q_svid q = svid) qs = qs) as ->.
  { subst qs. clear. induction times as [|t times IH]; [done|].
    rewrite fmap_cons, filter_cons_True by done. by rewrite IH. }
  assert (q_time <$> qs = times) as Hq.
  { subst qs. clear. induction times as [|t times IH]; [done|].
    rewrite !fmap_cons. cbn [q_time]. f_equal. exact IH. }
  rewrite Hq. clear Hq.
  rewrite (locate_sat_vectorised_missing day svid times σ Hnone).
  unfold lift, assign_masked, mret, M_ret.
  assert ((λ q, bool_decide (q_day q = day ∧ q_svid q = svid)) <$> qs
          = (λ _, true) <$> ((λ _, [nan; nan; nan]) <$> qs)) as ->.
  { subst qs. clear. induction times as [|t times IH]; [done|].
    rewrite !fmap_cons. cbn [q_day q_svid].
    rewrite bool_decide_eq_true_2 by done. f_equal. exact IH. }
  assert (length (filter (λ b : bool, b = true)
                    ((λ _, true) <$> ((λ _ : query, [nan; nan; nan]) <$> qs)))
          = length times) as Hcount.
  { subst qs. clear. induction times as [|t times IH]; [done|].
    rewrite !fmap_cons, filter_cons_True by done. simpl. by rewrite IH. }
  rewrite Hcount. clear Hcount.
  assert (length ((λ _ : query, [nan; nan; nan]) <$> qs) = length times) as Hlen
    by (subst qs; by rewrite !length_fmap).
  pose proof (λ vals, scatter_all ((λ _ : query, [nan; nan; nan]) <$> qs) vals)
    as Hscatter.
  rewrite Hlen in Hscatter.
  destruct times as [|t1 [|t2 [|t3 [|t4 times]]]]; [done|..];
    cbn [length fmap list_fmap broadcast_rows]; unfold mbind, res_bind;
    rewrite ?Hscatter by done; done.
Qed.

End Evaluator.

Lemma ex_orbit_wf : Forall (λ kv, wf_window kv.2) ex_orbit.
Proof. repeat constructor; vm_compute; discriminate. Qed.

Lemma locate_sat_vectorised_validity_witness :
  orbits ex_world !! "2020042"%string = Some {[ "G01"%string := ex_orbit ]} ∧
  ({[ "G01"%string := ex_orbit ]} : day_model) !! "G01"%string = Some ex_orbit ∧
  ex_orbit ≠ [] ∧
  Forall (λ kv, wf_window kv.2) ex_orbit ∧
  ∃ rows evs,
    _locate_sat_vectorised "2020042" [-1; 0; 2100; 2101] "G01" ex_world
    = (Ok (np_array rows), logged ex_world evs) ∧
    length rows = 4%nat.
Proof.
  assert (orbits ex_world !! "2020042"%string = Some {[ "G01"%string := ex_orbit ]})
    as H1 by reflexivity.
  assert (({[ "G01"%string := ex_orbit ]} : day_model) !! "G01"%string = Some ex_orbit)
    as H2 by reflexivity.
  assert (ex_orbit ≠ []) as H3 by discriminate.
  split; [exact H1|]. split; [exact H2|]. split; [exact H3|].
  split; [exact ex_orbit_wf|].
  destruct (locate_sat_vectorised_validity "2020042" "G01" [-1; 0; 2100; 2101]
              _ ex_orbit ex_world H1 H2 H3 ex_orbit_wf)
    as (rows & evs & Heq & Hlen & _).
  exists rows, evs. split; [exact Heq|exact Hlen].
Defined.

(** One nanosecond before [lb] and one after [ub] are rejected; [lb] and
    [ub] themselves are evaluated, here to the first and the eighth
    sample. *)
Example predict_at_the_bounds :
  _locate_sat_vectorised "2020042" [-1; 0; 2100; 2101] "G01"
    (World {[ "2020042"%string := {[ "G01"%string := [(900, window_at ex_x ex_y ex_z 0)] ]} ]}
           ∅ [])
  = (Ok (Arr2 [[nan; nan; nan];
               [ex_x 0%nat; ex_y 0%nat; ex_z 0%nat];
               [ex_x 7%nat; ex_y 7%nat; ex_z 7%nat];
               [nan; nan; nan]]),
     World {[ "2020042"%string := {[ "G01"%string := [(900, window_at ex_x ex_y ex_z 0)] ]} ]}
           ∅ [Warn (NoValidDictionary "G01" "2020042" (-1));
              Warn (NoValidDictionary "G01" "2020042" 2101)]).
Proof. reflexivity. Qed.

(** In exact arithmetic the window reproduces its eight samples. *)
Example exact_interpolation :
  (λ k : nat, evaluate (window_at ex_x ex_y ex_z 4) (300 * Z.of_nat (4 + k)))
    <$> seq 0 8
  = (λ k : nat, Ok [ex_x (4 + k)%nat; ex_y (4 + k)%nat; ex_z (4 + k)%nat])
    <$> seq 0 8.
Proof. vm_compute. reflexivity. Qed.

(** C1: two query rows for the satellite G02 on a day for which the store
    holds the satellite G01 only.  [_locate_sat_vectorised] warns and returns
    the array [nan, nan] of shape (2,), one number per row and not one
    triple per row; [_locate_sat] cannot broadcast it into the two rows of
    [output] and raises ValueError. *)
Theorem locate_sat_missing_group (t1 t2 : Z) :
  _locate_sat_vectorised "2020042" [t1; t2] "G02" ex_world
  = (Ok (Arr1 [nan; nan]),
     logged ex_world [Warn (OrbitNotAvailable "G02" "2020042")]) ∧
  _locate_sat [Query "2020042" t1 "G02"; Query "2020042" t2 "G02"] ex_world
  = (Raise ValueError,
     logged ex_world [Warn (OrbitNotAvailable "G02" "2020042")]).
Proof.
  assert (orbits ex_world !! "2020042"%string ≫= (.!! "G02"%string) = None)
    as Hnone by reflexivity.
  split.
  - exact (locate_sat_vectorised_missing "2020042" "G02" [t1; t2] ex_world Hnone).
  - exact (locate_sat_missing_rows "2020042" "G02" [t1; t2] ex_world
             ltac:(discriminate) Hnone).
Qed.

(** The same inside a batch that also asks for a satellite the store holds. *)
Example locate_sat_mixed_batch :
  _locate_sat [Query "2020042" 0 "G01"; Query "2020042" 0 "G02";
               Query "2020042" 300 "G02"] ex_world
  = (Raise ValueError,
     logged ex_world [Warn (OrbitNotAvailable "G02" "2020042")]).
Proof. reflexivity. Qed.

(** A group of one row, or of three, is broadcast to rows of NaN. *)
Example locate_sat_missing_single :
  _locate_sat [Query "2020042" 0 "G01"] fresh
  = (Ok [[nan; nan; nan]],
     World ∅ ∅ [Warn (OrbitNotAvailable "G01" "2020042")]).
Proof. vm_compute. reflexivity. Qed.

(** * The window maps that the updater stores are ordered *)

Section Ordered.
Context {FO : FloatOps}.

Lemma dict_set_keys (k : Z) (v : poly_dict) (d : window_map) :
  NoDup (fst <$> d) →
  NoDup (fst <$> dict_set k v d) ∧
  ∀ k', k' ∈ (fst <$> dict_set k v d) → k' = k ∨ k' ∈ (fst <$> d).
Proof.
  induction d as [|[k0 v0] d IH]; intros Hnd.
  { split; [apply NoDup_singleton|]. intros k' ?%list_elem_of_singleton. by left. }
  apply NoDup_cons in Hnd as [Hk0 Hnd]. simpl.
  destruct (decide (k = k0)) as [->|Hne]; simpl.
  - split; [by apply NoDup_cons|]. intros k' Hk'. by right.
  - destruct (IH Hnd) as [Hnd' Hin]. split.
    + apply NoDup_cons. split; [|done].
      intros [?|?]%Hin; [congruence|done].
    + intros k' [->|Hk']%elem_of_cons; [right; by left|].
      destruct (Hin k' Hk') as [?|?]; [by left|right; by right].
Qed.

Lemma fit_series_keys (orbits : list sample) (dic dic' : window_map) :
  NoDup (fst <$> dic) → fit_series orbits dic = Ok dic' → NoDup (fst <$> dic').
Proof.
  unfold fit_series. destruct (centre_indices _) as [idxs|]; [|done].
  simpl. revert dic. induction idxs as [|i idxs IH]; intros dic Hnd Heq.
  { simpl in Heq. by simplify_eq. }
  cbn [foldM] in Heq. destruct (_poly_lagrange i orbits) as [[k v]|]; [|done].
  simpl in Heq. eapply IH; [|exact Heq]. by apply dict_set_keys.
Qed.

Lemma sorted_le_nodup (l : list Z) : Sorted Z.le l → NoDup l → Sorted Z.lt l.
Proof.
  induction 1 as [|a l Hs IH Hhd]; intros Hnd; [constructor|].
  apply NoDup_cons in Hnd as [Ha Hnd]. constructor; [by apply IH|].
  destruct Hhd as [|b l Hab]; constructor.
  assert (a ≠ b) by (intros ->; apply Ha; by left). lia.
Qed.

(** The items of a fitted series, once sorted by the updater, have strictly
    increasing keys: the hypothesis of the theorems on the search. *)
Lemma sort_items_sorted (orbits : list sample) (dic : window_map) :
  fit_series orbits [] = Ok dic →
  Sorted Z.lt (fst <$> sort_items dic).
Proof.
  intros Hfit. apply sorted_le_nodup.
  - apply (Sorted_fmap fst key_le Z.le); [by intros ??|].
    assert (Total key_le) by (intros a b; unfold key_le; lia).
    apply (Sorted_merge_sort key_le).
  - pose proof (merge_sort_Permutation key_le dic) as Hperm.
    unfold sort_items. rewrite Hperm.
    eapply fit_series_keys; [|exact Hfit]. constructor.
Qed.

End Ordered.

(** * Properties of the model updater *)

Section UpdaterFacts.
Context {FO : FloatOps}.
Variable get_file : string → orbit_type → res string.
Variable get_frame : string → res (list sp3_row).

Implicit Types (σ : world) (day : string) (days : list string).

Lemma acquire_final σ day sp3 :
  get_file day final = Ok sp3 →
  acquire get_file day σ = (Ok sp3, logged σ [GetSp3File day final]).
Proof.
  intros H. unfold acquire, try_except, call_get_sp3_file,
    mbind, M_bind, emit, lift. simpl. by rewrite H.
Qed.

Lemma acquire_rapid σ day e1 sp3 :
  get_file day final = Raise e1 →
  get_file day rapid = Ok sp3 →
  acquire get_file day σ
  = (Ok sp3, logged σ [GetSp3File day final; Warn FinalNotAvailable;
                       GetSp3File day rapid]).
Proof.
  intros H1 H2. unfold acquire, try_except, call_get_sp3_file,
    mbind, M_bind, warn, emit, lift. simpl.
  rewrite H1. simpl. rewrite H2. by rewrite !logged_logged.
Qed.

Lemma acquire_ultra σ day e1 e2 :
  get_file day final = Raise e1 →
  get_file day rapid = Raise e2 →
  acquire get_file day σ
  = (get_file day ultra,
     logged σ [GetSp3File day final; Warn FinalNotAvailable;
               GetSp3File day rapid; Warn RapidNotAvailable;
               GetSp3File day ultra]).
Proof.
  intros H1 H2. unfold acquire, try_except, call_get_sp3_file,
    mbind, M_bind, warn, emit, lift. simpl.
  rewrite H1. simpl. rewrite H2. simpl. by rewrite !logged_logged.
Qed.

Lemma acquire_frame σ day :
  ∃ r evs, acquire get_file day σ = (r, logged σ evs) ∧
           ∀ d ty, GetSp3File d ty ∈ evs → d = day.
Proof.
  assert (∀ evs : list event,
            Forall (λ ev, ∀ d ty, ev = GetSp3File d ty → d = day) evs →
            ∀ d ty, GetSp3File d ty ∈ evs → d = day) as Hall.
  { intros evs Hevs d ty Hin. rewrite Forall_forall in Hevs. eauto. }
  destruct (get_file day final) as [sp3|e1] eqn:H1.
  { eexists _, _. split; [by apply acquire_final|].
    apply Hall. repeat constructor; congruence. }
  destruct (get_file day rapid) as [sp3|e2] eqn:H2.
  { eexists _, _. split; [by eapply acquire_rapid|].
    apply Hall. repeat constructor; congruence. }
  eexists _, _. split; [by eapply acquire_ultra|].
  apply Hall. repeat constructor; congruence.
Qed.

(** What one pass of the first loop does to the world: the cache is left
    alone, the directory gains the record of the day when the pass
    succeeds and is unchanged otherwise, and the only products asked for
    are those of the day. *)
Lemma build_day_frame σ day :
  ∃ r evs st',
    build_day get_file get_frame day σ = (r, World (orbits σ) st' (trace σ ++ evs)) ∧
    (∀ d ty, GetSp3File d ty ∈ evs → d = day) ∧
    match r with
    | Ok _ => ∃ m, st' = <[_get_filename day := m]> (stored σ)
    | Raise _ => st' = stored σ
    end.
Proof.
  destruct (acquire_frame σ day) as (r & evs & Hacq & Hevs).
  unfold build_day, mbind, M_bind. rewrite Hacq.
  destruct r as [sp3|e]; [|by eexists _, _, _].
  unfold lift. destruct (get_frame sp3) as [df|e]; [|by eexists _, _, _].
  destruct (_create_orbit df) as [unsorted|e]; [|by eexists _, _, _].
  unfold _save_orbit, logged. simpl. eexists _, _, _. split; [done|]. eauto.
Qed.

Lemma build_day_fails σ day e1 e2 e3 :
  get_file day final = Raise e1 →
  get_file day rapid = Raise e2 →
  get_file day ultra = Raise e3 →
  build_day get_file get_frame day σ
  = (Raise e3,
     logged σ [GetSp3File day final; Warn FinalNotAvailable;
               GetSp3File day rapid; Warn RapidNotAvailable;
               GetSp3File day ultra]).
Proof.
  intros H1 H2 H3. unfold build_day, mbind, M_bind.
  rewrite (acquire_ultra σ day e1 e2 H1 H2), H3. done.
Qed.

Lemma str_length_app (s1 s2 : string) :
  String.length (s1 +:+ s2) = (String.length s1 + String.length s2)%nat.
Proof.
  induction s1 as [|c s1 IH]; [done|].
  change (S (String.length (s1 +:+ s2)) = S (String.length s1 + String.length s2)).
  by rewrite IH.
Qed.

Lemma str_app_inj_r (s1 s2 s : string) : s1 +:+ s = s2 +:+ s → s1 = s2.
Proof.
  revert s2. induction s1 as [|c1 s1 IH]; intros [|c2 s2] Heq; [done| | |].
  - apply (f_equal String.length) in Heq.
    change (String.length s = S (String.length (s2 +:+ s))) in Heq.
    rewrite str_length_app in Heq. lia.
  - apply (f_equal String.length) in Heq.
    change (S (String.length (s1 +:+ s)) = String.length s) in Heq.
    rewrite str_length_app in Heq. lia.
  - change (String c1 (s1 +:+ s) = String c2 (s2 +:+ s)) in Heq.
    injection Heq as -> Heq. f_equal. by apply IH.
Qed.

Lemma get_filename_inj (d d' : string) :
  _get_filename d = _get_filename d' → d = d'.
Proof.
  unfold _get_filename. intros Heq%(inj (String.append "orbits_")).
  by apply str_app_inj_r in Heq.
Qed.

(** The first loop as a whole. *)
Lemma build_days_frame (l : list string) σ :
  ∃ r evs st',
    forM_ (build_day get_file get_frame) l σ
    = (r, World (orbits σ) st' (trace σ ++ evs)) ∧
    (∀ d ty, GetSp3File d ty ∈ evs → d ∈ l) ∧
    dom (stored σ) ⊆ dom st' ∧
    (r = Ok () → ∀ d, d ∈ l → is_Some (st' !! _get_filename d)).
Proof.
  revert σ. induction l as [|a l IH]; intros σ.
  { exists (Ok ()), [], (stored σ). simpl. unfold mret, M_ret.
    rewrite app_nil_r. destruct σ. set_solver. }
  destruct (build_day_frame σ a) as (r & evs & st1 & Hb & Hevs & Hst).
  cbn [forM_]. unfold mbind, M_bind. rewrite Hb.
  destruct r as [[]|e].
  - destruct Hst as [m ->].
    destruct (IH (World (orbits σ) (<[_get_filename a := m]> (stored σ)) (trace σ ++ evs)))
      as (r' & evs' & st' & Hf & Hevs' & Hdom & Hok).
    simpl in *. rewrite Hf. exists r', (evs ++ evs'), st'.
    rewrite app_assoc. split; [done|]. split; [|split].
    + intros d ty [Hin|Hin]%elem_of_app; apply elem_of_cons; [left|right]; eauto.
    + etrans; [|exact Hdom]. rewrite dom_insert. set_solver.
    + intros Hr d [->|Hd]%elem_of_cons; [|by apply Hok].
      apply elem_of_dom, Hdom, elem_of_dom. rewrite lookup_insert_eq. eauto.
  - subst st1. exists (Raise e), evs, (stored σ). split; [done|].
    split; [|split; [done|done]].
    intros d ty Hin. apply elem_of_cons. left. eauto.
Qed.

(** A day whose three products all fail stops the first loop; nothing is
    written for that day. *)
Lemma build_days_raise (l : list string) σ day e1 e2 e3 :
  day ∈ l →
  get_file day final = Raise e1 →
  get_file day rapid = Raise e2 →
  get_file day ultra = Raise e3 →
  ∃ e evs st',
    forM_ (build_day get_file get_frame) l σ
    = (Raise e, World (orbits σ) st' (trace σ ++ evs)) ∧
    st' !! _get_filename day = stored σ !! _get_filename day.
Proof.
  intros Hin H1 H2 H3. revert σ. induction l as [|a l IH]; intros σ.
  { by apply elem_of_nil in Hin. }
  cbn [forM_]. unfold mbind, M_bind.
  destruct (decide (a = day)) as [->|Hne].
  { rewrite (build_day_fails σ day e1 e2 e3 H1 H2 H3). by eexists _, _, _. }
  apply elem_of_cons in Hin as [?|Hin]; [congruence|].
  destruct (build_day_frame σ a) as (r & evs & st1 & Hb & _ & Hst).
  rewrite Hb. destruct r as [[]|e].
  - destruct Hst as [m ->].
    destruct (IH Hin (World (orbits σ) (<[_get_filename a := m]> (stored σ))
                            (trace σ ++ evs)))
      as (e & evs' & st' & Hf & Hlk).
    simpl in *. rewrite Hf, <- app_assoc. eexists _, _, _. split; [done|].
    rewrite Hlk. apply lookup_insert_ne. intros ?%get_filename_inj. done.
  - subst st1. by eexists _, _, _.
Qed.

(** The second loop: it never raises and touches only the cache, where each
    listed day not yet cached gets its record, or the empty model when the
    record is absent. *)
Lemma cache_days_spec (l : list string) σ :
  ∃ orbs',
    forM_ cache_day l σ = (Ok (), World orbs' (stored σ) (trace σ)) ∧
    ∀ d, orbs' !! d =
         match orbits σ !! d with
         | Some m => Some m
         | None => if decide (d ∈ l)
                   then Some (default ∅ (stored σ !! _get_filename d))
                   else None
         end.
Proof.
  revert σ. induction l as [|a l IH]; intros σ.
  { exists (orbits σ). split; [by destruct σ|].
    intros d. destruct (orbits σ !! d); [done|]. by rewrite decide_False by set_solver. }
  cbn [forM_]. unfold mbind at 1, M_bind at 1.
  assert (∃ σ1, cache_day a σ = (Ok (), σ1) ∧ stored σ1 = stored σ ∧
                trace σ1 = trace σ ∧
                ∀ d, orbits σ1 !! d =
                     match orbits σ !! d with
                     | Some m => Some m
                     | None => if decide (d = a)
                               then Some (default ∅ (stored σ !! _get_filename d))
                               else None
                     end) as (σ1 & -> & Hst & Htr & Horb).
  { unfold cache_day, mbind, M_bind, get_orbits.
    destruct (decide (a ∈ dom (orbits σ))) as [Hin|Hnin].
    - exists σ. split; [done|]. split; [done|]. split; [done|].
      intros d. destruct (orbits σ !! d) eqn:Hd; [done|].
      case_decide; [|done]. subst. apply elem_of_dom in Hin as [? ?]. congruence.
    - unfold _load_orbit, set_orbit.
      apply not_elem_of_dom in Hnin.
      destruct (stored σ !! _get_filename a) as [m|] eqn:Hm; simpl;
        (eexists; split; [done|]; split; [done|]; split; [done|]);
        intros d; simpl; destruct (decide (d = a)) as [->|Hne];
        rewrite ?lookup_insert_eq, ?Hnin, ?Hm; try done;
        by rewrite lookup_insert_ne by done; destruct (orbits σ !! d). }
  destruct (IH σ1) as (orbs' & Hf & Hlk). rewrite Hf, Hst, Htr.
  exists orbs'. split; [done|]. intros d. rewrite Hlk, Horb, Hst.
  destruct (orbits σ !! d); [done|].
  destruct (decide (d = a)) as [->|Hne].
  - rewrite decide_True; [done|]. apply elem_of_cons. by left.
  - destruct (decide (d ∈ l)).
    + rewrite decide_True; [done|]. apply elem_of_cons. by right.
    + rewrite decide_False; [done|]. by intros [?|?]%elem_of_cons.
Qed.

Lemma update_orbits_unfold days σ :
  _update_orbits get_file get_frame days σ
  = match forM_ (build_day get_file get_frame)
            (elements (list_to_set days ∖ persisted_days σ : gset string)) σ with
    | (Ok _, σ1) => forM_ cache_day (elements (list_to_set days : gset string)) σ1
    | (Raise e, σ1) => (Raise e, σ1)
    end.
Proof. reflexivity. Qed.

Lemma persisted_days_mono σ σ' :
  dom (stored σ) ⊆ dom (stored σ') → persisted_days σ ⊆ persisted_days σ'.
Proof.
  intros Hdom d. unfold persisted_days.
  rewrite !elem_of_list_to_set, !list_elem_of_omap.
  intros (f & Hf & Hd). exists f. split; [|done].
  apply elem_of_elements, Hdom, elem_of_elements, Hf.
Qed.

(** A call of [_update_orbits], whatever its outcome. *)
Lemma update_orbits_frame days σ :
  ∃ r orbs' st' evs,
    _update_orbits get_file get_frame days σ
    = (r, World orbs' st' (trace σ ++ evs)) ∧
    (∀ d ty, GetSp3File d ty ∈ evs → d ∈ days ∧ d ∉ persisted_days σ) ∧
    dom (stored σ) ⊆ dom st' ∧
    match r with
    | Ok _ =>
        (∀ d, d ∈ days → d ∈ persisted_days σ ∨ is_Some (st' !! _get_filename d)) ∧
        (∀ d, orbs' !! d =
              match orbits σ !! d with
              | Some m => Some m
              | None => if decide (d ∈ days)
                        then Some (default ∅ (st' !! _get_filename d))
                        else None
              end)
    | Raise _ => orbs' = orbits σ
    end.
Proof.
  rewrite update_orbits_unfold.
  destruct (build_days_frame
              (elements (list_to_set days ∖ persisted_days σ : gset string)) σ)
    as (r & evs & st1 & -> & Hevs & Hdom & Hok).
  assert (∀ d ty, GetSp3File d ty ∈ evs → d ∈ days ∧ d ∉ persisted_days σ) as Hevs'.
  { intros d ty Hin. apply Hevs, elem_of_elements, elem_of_difference in Hin as [Hd ?].
    by apply elem_of_list_to_set in Hd. }
  destruct r as [[]|e]; [|by eexists _, _, _, _].
  destruct (cache_days_spec (elements (list_to_set days : gset string))
              (World (orbits σ) st1 (trace σ ++ evs))) as (orbs' & -> & Hlk).
  simpl in *. exists (Ok ()), orbs', st1, evs.
  split; [done|]. split; [done|]. split; [done|]. split.
  - intros d' Hd. destruct (decide (d' ∈ persisted_days σ)); [by left|right].
    apply Hok; [done|]. apply elem_of_elements, elem_of_difference.
    split; [by apply elem_of_list_to_set|done].
  - intros d'. rewrite Hlk. destruct (orbits σ !! d'); [done|].
    destruct (decide (d' ∈ days)) as [Hd|Hd].
    + rewrite decide_True; [done|]. by apply elem_of_elements, elem_of_list_to_set.
    + rewrite decide_False; [done|]. by rewrite elem_of_elements, elem_of_list_to_set.
Qed.

(** Acquisition is decided by the records: no product is asked for a day
    that the directory lists. *)
Lemma update_orbits_listed_day days day σ :
  day ∈ persisted_days σ →
  ∃ r orbs' st' evs,
    _update_orbits get_file get_frame days σ
    = (r, World orbs' st' (trace σ ++ evs)) ∧
    ∀ ty, GetSp3File day ty ∉ evs.
Proof.
  intros Hday.
  destruct (update_orbits_frame days σ) as (r & orbs' & st' & evs & Heq & Hevs & _).
  exists r, orbs', st', evs. split; [done|].
  intros ty Hin. by apply Hevs in Hin as [_ ?].
Qed.

(** C3, as amended: for a day without a record the products are asked for
    in the order final, rapid, ultra; a failure of final or of rapid is
    caught, with a warning, and the next product is tried.  The failure of
    ultra is not caught: when the three fail, [_update_orbits] raises, after
    the two warnings, and the day is neither written to the directory nor
    cached. *)
Theorem update_orbits_tiers (day : string) (σ : world) :
  (∀ sp3, get_file day final = Ok sp3 →
     acquire get_file day σ = (Ok sp3, logged σ [GetSp3File day final])) ∧
  (∀ e1 sp3, get_file day final = Raise e1 → get_file day rapid = Ok sp3 →
     acquire get_file day σ
     = (Ok sp3, logged σ [GetSp3File day final; Warn FinalNotAvailable;
                          GetSp3File day rapid])) ∧
  (∀ e1 e2 sp3, get_file day final = Raise e1 → get_file day rapid = Raise e2 →
     get_file day ultra = Ok sp3 →
     acquire get_file day σ
     = (Ok sp3, logged σ [GetSp3File day final; Warn FinalNotAvailable;
                          GetSp3File day rapid; Warn RapidNotAvailable;
                          GetSp3File day ultra])) ∧
  (∀ e1 e2 e3, get_file day final = Raise e1 → get_file day rapid = Raise e2 →
     get_file day ultra = Raise e3 →
     day ∉ persisted_days σ →
     _update_orbits get_file get_frame [day] σ
     = (Raise e3, logged σ [GetSp3File day final; Warn FinalNotAvailable;
                            GetSp3File day rapid; Warn RapidNotAvailable;
                            GetSp3File day ultra]) ∧
     ∀ days, day ∈ days →
       ∃ e evs st',
         _update_orbits get_file get_frame days σ
         = (Raise e, World (orbits σ) st' (trace σ ++ evs)) ∧
         st' !! _get_filename day = stored σ !! _get_filename day).
Proof.
  split; [intros; by apply acquire_final|].
  split; [intros; by eapply acquire_rapid|].
  split; [intros ??? H1 H2 H3; by rewrite (acquire_ultra σ day _ _ H1 H2), H3|].
  intros e1 e2 e3 H1 H2 H3 Hmiss. split.
  - rewrite update_orbits_unfold.
    assert (list_to_set [day] ∖ persisted_days σ = ({[day]} : gset string)) as ->.
    { apply set_eq. intros d.
      rewrite elem_of_difference, elem_of_list_to_set, list_elem_of_singleton,
        elem_of_singleton.
      split; [by intros [? _]|by intros ->]. }
    rewrite elements_singleton. cbn [forM_]. unfold mbind, M_bind.
    by rewrite (build_day_fails σ day e1 e2 e3 H1 H2 H3).
  - intros days Hin. rewrite update_orbits_unfold.
    destruct (build_days_raise
                (elements (list_to_set days ∖ persisted_days σ : gset string))
                σ day e1 e2 e3) as (e & evs & st' & -> & Hlk); try done.
    { apply elem_of_elements, elem_of_difference.
      split; [by apply elem_of_list_to_set|done]. }
    by eexists _, _, _.
Qed.

End UpdaterFacts.

Lemma update_orbits_tiers_witness :
  no_network "2020042" final = Raise URLError ∧
  no_network "2020042" rapid = Raise URLError ∧
  no_network "2020042" ultra = Raise URLError ∧
  ("2020042" ∉ persisted_days fresh) ∧
  _update_orbits no_network no_frame ["2020042"] fresh
  = (Raise URLError,
     logged fresh [GetSp3File "2020042" final; Warn FinalNotAvailable;
                   GetSp3File "2020042" rapid; Warn RapidNotAvailable;
                   GetSp3File "2020042" ultra]).
Proof.
  assert ("2020042" ∉ persisted_days fresh) as Hmiss.
  { assert (persisted_days fresh = ∅) as -> by reflexivity.
    apply not_elem_of_empty. }
  split; [reflexivity|]. split; [reflexivity|]. split; [reflexivity|].
  split; [exact Hmiss|].
  exact (proj1 (proj2 (proj2 (proj2
           (update_orbits_tiers no_network no_frame "2020042" fresh)))
           URLError URLError URLError eq_refl eq_refl eq_refl Hmiss)).
Defined.

Lemma update_orbits_tiers_counterexample :
  _update_orbits no_network no_frame ["2020042"] fresh
  = (Raise URLError,
     logged fresh [GetSp3File "2020042" final; Warn FinalNotAvailable;
                   GetSp3File "2020042" rapid; Warn RapidNotAvailable;
                   GetSp3File "2020042" ultra]) ∧
  ¬ ∃ σ', _update_orbits no_network no_frame ["2020042"] fresh = (Ok (), σ').
Proof.
  assert (_update_orbits no_network no_frame ["2020042"] fresh
          = (Raise URLError,
             logged fresh [GetSp3File "2020042" final; Warn FinalNotAvailable;
                           GetSp3File "2020042" rapid; Warn RapidNotAvailable;
                           GetSp3File "2020042" ultra])) as Heq
    by reflexivity.
  split; [exact Heq|]. intros [σ' Hok]. rewrite Heq in Hok. discriminate Hok.
Qed.

(** * The cache *)

Section Lookup.
Context {FO : FloatOps}.

Lemma warns_only_ret {A : Type} (a : A) : warns_only (mret a).
Proof. intros σ. exists (Ok a), []. by rewrite logged_nil. Qed.

Lemma warns_only_lift {A : Type} (r : res A) : warns_only (lift r).
Proof. intros σ. exists r, []. by rewrite logged_nil. Qed.

Lemma warns_only_warn (w : warning) : warns_only (warn w).
Proof. intros σ. exists (Ok ()), [Warn w]. split; [done|]. by repeat constructor. Qed.

Lemma warns_only_bind {A B : Type} (c : M A) (f : A → M B) :
  warns_only c → (∀ a, warns_only (f a)) → warns_only (c ≫= f).
Proof.
  intros Hc Hf σ. destruct (Hc σ) as (r & evs & Heq & Hevs).
  unfold mbind, M_bind. rewrite Heq. destruct r as [a|e].
  - destruct (Hf a (logged σ evs)) as (r' & evs' & -> & Hevs').
    exists r', (evs ++ evs'). rewrite logged_logged. split; [done|].
    by apply Forall_app.
  - by exists (Raise e), evs.
Qed.

Lemma warns_only_mapM {A B : Type} (f : A → M B) (l : list A) :
  (∀ a, warns_only (f a)) → warns_only (mapM f l).
Proof.
  intros Hf. induction l as [|a l IH]; [apply warns_only_ret|].
  cbn [mapM]. apply warns_only_bind; [done|]. intros b.
  apply warns_only_bind; [done|]. intros bs. apply warns_only_ret.
Qed.


Lemma warns_only_predict (orbit : window_map) (svid day : string) (i time : Z) :
  warns_only (predict orbit svid day i time).
Proof.
  unfold predict. apply warns_only_bind; [apply warns_only_lift|]. intros kv.
  case_decide; [|apply warns_only_lift].
  apply warns_only_bind; [apply warns_only_warn|]. intros _. apply warns_only_ret.
Qed.

Lemma warns_only_locate_sat_vectorised (day : string) (times : list Z) (svid : string) :
  warns_only (_locate_sat_vectorised day times svid).
Proof.
  unfold _locate_sat_vectorised. apply warns_only_bind.
  { intros σ. exists (Ok (orbits σ)), []. by rewrite logged_nil. }
  intros orbs. destruct (orbs !! day ≫= _) as [orbit|].
  - apply warns_only_bind; [apply warns_only_lift|]. intros idx.
    apply warns_only_bind; [|intros; apply warns_only_ret].
    apply warns_only_mapM. intros it. apply warns_only_predict.
  - apply warns_only_bind; [apply warns_only_warn|]. intros _. apply warns_only_ret.
Qed.


End Lookup.

Section Cache.
Context {FO : FloatOps}.
Variable get_file : string → orbit_type → res string.
Variable get_frame : string → res (list sp3_row).




End Cache.



(** With the stray file the record of the day is absent, the cached model
    is empty, and a second call asks for no product. *)
Example update_orbits_stray_file :
  stored ex_stray !! _get_filename "2020042" = None ∧
  _update_orbits no_network no_frame ["2020042"]
    (World {[ "2020042"%string := ∅ ]} (stored ex_stray) [])
  = (Ok (), World {[ "2020042"%string := ∅ ]} (stored ex_stray) []).
Proof. split; reflexivity. Qed.

(** * Further properties of the search *)

(** X1: on an ordered, non-empty list of midpoints the search returns an index
    whose midpoint is as close to the query time as any midpoint of the
    list. *)
Theorem nearest_minimal (keys : list Z) (time : Z) :
  Sorted Z.le keys → keys ≠ [] →
  ∃ (i : Z) (ki : Z),
    nearest keys time = Ok i ∧
    0 ≤ i < Z.of_nat (length keys) ∧
    keys !! Z.to_nat i = Some ki ∧
    ∀ (j : nat) (kj : Z), keys !! j = Some kj →
                          Z.abs (ki - time) ≤ Z.abs (kj - time).
Proof.
  intros Hs Hne.
  destruct (searchsorted_sorted keys time Hs) as [Hlow Hup].
  pose proof (searchsorted_range keys time) as Hr.
  assert (0 < Z.of_nat (length keys)) as Hlen by (destruct keys; [done|simpl; lia]).
  unfold nearest. set (close := searchsorted keys time) in *.
  destruct (py_index_lookup keys (Z.max 0 (close - 1))) as (kl & -> & Hkl); [lia|].
  destruct (py_index_lookup keys (Z.min (Z.of_nat (length keys) - 1) close))
    as (ku & -> & Hku); [lia|].
  cbn [mbind res_bind].
  assert (∀ (j : nat) kj, keys !! j = Some kj →
            Z.abs (kl - time) ≤ Z.abs (kj - time) ∨
            Z.abs (ku - time) ≤ Z.abs (kj - time)) as Hbest.
  { intros j kj Hj. pose proof (lookup_lt_Some _ _ _ Hj) as Hjlen.
    destruct (decide (Z.of_nat j < close)) as [Hjc|Hjc].
    - left. pose proof (Hlow j kj Hjc Hj).
      pose proof (Hlow (Z.to_nat (Z.max 0 (close - 1))) kl ltac:(lia) Hkl).
      pose proof (sorted_lookup_le keys j (Z.to_nat (Z.max 0 (close - 1))) kj kl
                    Hs Hj Hkl ltac:(lia)). lia.
    - right. pose proof (Hup j kj ltac:(lia) Hj).
      destruct (decide (close < Z.of_nat (length keys))) as [Hc|Hc].
      + pose proof (Hup (Z.to_nat (Z.min (Z.of_nat (length keys) - 1) close)) ku
                      ltac:(lia) Hku).
        pose proof (sorted_lookup_le keys
                      (Z.to_nat (Z.min (Z.of_nat (length keys) - 1) close)) j ku kj
                      Hs Hku Hj ltac:(lia)). lia.
      + lia. }
  destruct (decide (Z.abs (kl - time) < Z.abs (ku - time))) as [Hlt|Hge].
  - exists (Z.max 0 (close - 1)), kl. split; [done|]. split; [lia|]. split; [done|].
    intros j kj Hj. destruct (Hbest j kj Hj); lia.
  - exists (Z.min (Z.of_nat (length keys) - 1) close), ku.
    split; [done|]. split; [lia|]. split; [done|].
    intros j kj Hj. destruct (Hbest j kj Hj); lia.
Qed.

Lemma nearest_minimal_witness :
  Sorted Z.le [900; 2100] ∧ [900; 2100] ≠ [] ∧
  ∃ i ki, nearest [900; 2100] 1600 = Ok i ∧ [900; 2100] !! Z.to_nat i = Some ki.
Proof.
  assert (Sorted Z.le [900; 2100]) as Hs by (repeat constructor; lia).
  assert ([900; 2100] ≠ []) as Hne by discriminate.
  split; [exact Hs|]. split; [exact Hne|].
  destruct (nearest_minimal [900; 2100] 1600 Hs Hne) as (i & ki & Hi & _ & Hk & _).
  exists i, ki. split; [exact Hi|exact Hk].
Defined.

(** * Further properties of the orbit fitter *)

Section FitterMore.
Context {FO : FloatOps}.

(** X2: [_poly_lagrange] returns a window exactly for the centre indices that its
    guard admits; for every other index it raises ValueError, and reading
    the eight rows of the slice never fails. *)
Theorem poly_lagrange_defined (i : Z) (alldata : list sample) :
  (3 ≤ i ≤ Z.of_nat (length alldata) - 5 ↔
   ∃ kv, _poly_lagrange i alldata = Ok kv) ∧
  (¬ 3 ≤ i ≤ Z.of_nat (length alldata) - 5 →
   _poly_lagrange i alldata = Raise ValueError).
Proof.
  assert (¬ 3 ≤ i ≤ Z.of_nat (length alldata) - 5 →
          _poly_lagrange i alldata = Raise ValueError) as Hbad.
  { intros Hi. unfold _poly_lagrange. rewrite decide_True by lia. done. }
  split; [|exact Hbad]. split; [apply poly_lagrange_window_ok|].
  intros [kv Hkv].
  destruct (decide (3 ≤ i ≤ Z.of_nat (length alldata) - 5)) as [|Hi]; [done|].
  rewrite (Hbad Hi) in Hkv. discriminate Hkv.
Qed.

Lemma py_range_centres (n : Z) :
  py_range 3 (n - 5) 4
  = (λ k : nat, 3 + Z.of_nat k * 4) <$> seq 0 (Z.to_nat ((n - 5) / 4)).
Proof. unfold py_range. by replace (n - 5 - 3 + 4 - 1) with (n - 5) by lia. Qed.

Lemma last_fmap_seq {A : Type} (f : nat → A) (m : nat) :
  last (f <$> seq 0 (S m)) = Some (f m).
Proof.
  rewrite fmap_last, last_lookup, length_seq. simpl Nat.pred.
  rewrite lookup_seq_lt by lia. done.
Qed.

(** The centre indices of a series of at least 9 samples: they start at 3,
    end at [n - 5], stay within the guard of [_poly_lagrange], and every
    sample index lies among the eight rows [i-3 .. i+4] of one of them. *)
Lemma centre_indices_cover (n : Z) :
  9 ≤ n →
  ∃ idxs,
    centre_indices n = Ok idxs ∧
    head idxs = Some 3 ∧
    last idxs = Some (n - 5) ∧
    (∀ i, i ∈ idxs → 3 ≤ i ≤ n - 5) ∧
    ∀ j, 0 ≤ j < n → ∃ i, i ∈ idxs ∧ i - 3 ≤ j ≤ i + 4.
Proof.
  intros Hn. unfold centre_indices. rewrite py_range_centres.
  assert (1 ≤ (n - 5) / 4) as Hm by (apply Z.div_le_lower_bound; lia).
  pose proof (Z.mul_div_le (n - 5) 4 ltac:(lia)) as Hlo.
  pose proof (Z.mul_succ_div_gt (n - 5) 4 ltac:(lia)) as Hhi.
  destruct (Z.to_nat ((n - 5) / 4)) as [|m] eqn:Hmn; [lia|].
  assert ((n - 5) / 4 = Z.of_nat (S m)) as Hq by lia.
  rewrite Hq in Hlo, Hhi. clear Hm Hmn Hq.
  set (f := λ k : nat, 3 + Z.of_nat k * 4).
  rewrite last_fmap_seq.
  assert (∀ i, i ∈ f <$> seq 0 (S m) → 3 ≤ i ≤ n - 5) as Hin.
  { intros i (k & -> & Hk%elem_of_seq)%list_elem_of_fmap. unfold f. lia. }
  assert (∀ j, 0 ≤ j ≤ f m + 4 → ∃ i, i ∈ f <$> seq 0 (S m) ∧ i - 3 ≤ j ≤ i + 4)
    as Hcov.
  { intros j Hj. exists (f (Nat.min (Z.to_nat (j / 4)) m)). split.
    - apply list_elem_of_fmap. eexists. split; [done|]. apply elem_of_seq. lia.
    - pose proof (Z.mul_div_le j 4 ltac:(lia)).
      pose proof (Z.mul_succ_div_gt j 4 ltac:(lia)).
      assert (0 ≤ j / 4) by (apply Z.div_pos; lia).
      unfold f in *. lia. }
  eexists. split; [done|].
  destruct (decide (f m ≠ n - 5)) as [Hne|Heq].
  - split; [done|]. split; [by rewrite last_snoc|]. split.
    + intros i [Hi|Hi%list_elem_of_singleton]%elem_of_app; [by apply Hin|lia].
    + intros j Hj. destruct (decide (j ≤ f m + 4)) as [Hle|Hgt].
      * destruct (Hcov j ltac:(lia)) as (i & Hi & Hij).
        exists i. split; [|done]. apply elem_of_app. by left.
      * exists (n - 5). split.
        -- apply elem_of_app. right. by apply list_elem_of_singleton.
        -- unfold f in *. lia.
  - split; [done|]. split; [rewrite last_fmap_seq; f_equal; unfold f in *; lia|].
    split; [exact Hin|].
    intros j Hj. apply Hcov. unfold f in *. lia.
Qed.

Lemma centre_indices_cover_witness :
  9 ≤ 12 ∧ ∃ idxs, centre_indices 12 = Ok idxs ∧ last idxs = Some 7.
Proof.
  assert (9 ≤ 12) as H by lia. split; [exact H|].
  destruct (centre_indices_cover 12 H) as (idxs & Heq & _ & Hlast & _).
  exists idxs. split; [exact Heq|exact Hlast].
Defined.

Lemma poly_lagrange_bounds (i : Z) (alldata : list sample) (kv : Z * poly_dict) :
  _poly_lagrange i alldata = Ok kv →
  3 ≤ i ≤ Z.of_nat (length alldata) - 5 ∧
  ∃ a c b,
    alldata !! Z.to_nat (i - 3) = Some a ∧
    alldata !! Z.to_nat i = Some c ∧
    alldata !! Z.to_nat (i + 4) = Some b ∧
    kv.1 = tm c ∧ lb kv.2 = tm a ∧ ub kv.2 = tm b.
Proof.
  unfold _poly_lagrange.
  destruct (decide (i < 3 ∨ i > Z.of_nat (length alldata) - 5)) as [|Hi]; [done|].
  pose proof (slice_length i alldata ltac:(lia)) as Hlen.
  pose proof (λ k Hk, slice_lookup i alldata k Hk) as Hlk.
  destruct (take 8 (drop (Z.to_nat (i - 3)) alldata))
    as [|s0 [|s1 [|s2 [|s3 [|s4 [|s5 [|s6 [|s7 [|s8 rest]]]]]]]]];
    try discriminate Hlen.
  intros Heq. injection Heq as <-. split; [lia|].
  exists s0, s3, s7.
  pose proof (Hlk 0%nat ltac:(lia)) as H0.
  pose proof (Hlk 3%nat ltac:(lia)) as H3.
  pose proof (Hlk 7%nat ltac:(lia)) as H7.
  simpl in H0, H3, H7.
  replace (Z.to_nat (i - 3) + 0)%nat with (Z.to_nat (i - 3)) in H0 by lia.
  replace (Z.to_nat (i - 3) + 3)%nat with (Z.to_nat i) in H3 by lia.
  replace (Z.to_nat (i - 3) + 7)%nat with (Z.to_nat (i + 4)) in H7 by lia.
  done.
Qed.

Lemma dict_set_elem (k : Z) (v : poly_dict) (d : window_map) :
  (k, v) ∈ dict_set k v d ∧
  (∀ kv, kv ∈ d → kv.1 ≠ k → kv ∈ dict_set k v d) ∧
  (∀ kv, kv ∈ dict_set k v d → kv = (k, v) ∨ kv ∈ d).
Proof.
  induction d as [|[k0 v0] d (IH1 & IH2 & IH3)]; simpl.
  { split; [by left|]. split; [by intros ? ?%elem_of_nil|].
    intros kv ?%list_elem_of_singleton. by left. }
  destruct (decide (k = k0)) as [->|Hne].
  - split; [by left|]. split.
    + intros kv [->|?]%elem_of_cons ?; [done|by right].
    + intros kv [->|?]%elem_of_cons; [by left|right; by right].
  - split; [by right|]. split.
    + intros kv [->|?]%elem_of_cons ?; [by left|right; by apply IH2].
    + intros kv [->|Hkv]%elem_of_cons; [right; by left|].
      destruct (IH3 kv Hkv) as [?|?]; [by left|right; by right].
Qed.

(** X3: every sample of a series of at least 9 samples at strictly increasing
    times lies in the validity interval of one of the windows fitted; one
    window starts at the first sample and one ends at the last; and every
    window is centred at a sample, within its interval. *)
Theorem fit_series_covers (orbits : list sample) :
  Sorted Z.lt (tm <$> orbits) → (9 ≤ length orbits)%nat →
  ∃ dic,
    fit_series orbits [] = Ok dic ∧
    (∀ s, s ∈ orbits → ∃ k w, (k, w) ∈ dic ∧ lb w ≤ tm s ≤ ub w) ∧
    (∃ k w, (k, w) ∈ dic ∧ Some (lb w) = tm <$> head orbits) ∧
    (∃ k w, (k, w) ∈ dic ∧ Some (ub w) = tm <$> last orbits) ∧
    (∀ k w, (k, w) ∈ dic → k ∈ (tm <$> orbits) ∧ lb w < k < ub w).
Proof.
  intros Hs Hlen.
  pose proof (sorted_lt_le _ Hs) as Hle.
  destruct (centre_indices_cover (Z.of_nat (length orbits)) ltac:(lia))
    as (idxs & Hidx & Hhead & Hlast & Hvalid & Hcov).
  unfold fit_series. rewrite Hidx. cbn [mbind res_bind].
  assert (∀ i i' kv kv', _poly_lagrange i orbits = Ok kv →
            _poly_lagrange i' orbits = Ok kv' → kv.1 = kv'.1 → kv = kv') as Hinj.
  { intros i i' kv kv' Hi Hi' Hk.
    destruct (poly_lagrange_bounds _ _ _ Hi) as (Hr & _ & c & _ & _ & Hc & _ & Hkc & _).
    destruct (poly_lagrange_bounds _ _ _ Hi') as (Hr' & _ & c' & _ & _ & Hc' & _ & Hkc' & _).
    assert (tm <$> orbits !! Z.to_nat i = Some (tm c)) as Ht by by rewrite Hc.
    assert (tm <$> orbits !! Z.to_nat i' = Some (tm c')) as Ht' by by rewrite Hc'.
    rewrite <- list_lookup_fmap in Ht, Ht'.
    assert (i = i') as ->; [|congruence].
    destruct (Z.lt_trichotomy i i') as [Hlt|[?|Hgt]]; [|done|].
    - pose proof (sorted_lookup_lt _ _ _ _ _ Hs Ht Ht' ltac:(lia)). lia.
    - pose proof (sorted_lookup_lt _ _ _ _ _ Hs Ht' Ht ltac:(lia)). lia. }
  assert (∀ (l : list Z) (dic : window_map),
            (∀ i, i ∈ l → 3 ≤ i ≤ Z.of_nat (length orbits) - 5) →
            (∀ kv, kv ∈ dic → ∃ i, _poly_lagrange i orbits = Ok kv) →
            ∃ dic',
              foldM (λ d i, kv ← _poly_lagrange i orbits; Ok (dict_set kv.1 kv.2 d))
                    l dic = Ok dic' ∧
              (∀ kv, kv ∈ dic → kv ∈ dic') ∧
              (∀ i, i ∈ l → ∃ kv, _poly_lagrange i orbits = Ok kv ∧ kv ∈ dic') ∧
              (∀ kv, kv ∈ dic' → ∃ i, _poly_lagrange i orbits = Ok kv)) as Hfold.
  { induction l as [|i l IH]; intros dic Hl Hdic.
    { exists dic. split; [done|]. split; [done|]. split; [|done].
      by intros ? ?%elem_of_nil. }
    destruct (poly_lagrange_window_ok i orbits) as [[k v] Hkv]; [apply Hl; by left|].
    destruct (dict_set_elem k v dic) as (Hd1 & Hd2 & Hd3).
    destruct (IH (dict_set k v dic)) as (dic' & Heq & Hkeep & Hnew & Hall).
    { intros j Hj. apply Hl. by right. }
    { intros kv [->|Hin]%Hd3; [by exists i|by apply Hdic]. }
    exists dic'. cbn [foldM]. rewrite Hkv. cbn [mbind res_bind fst snd].
    split; [exact Heq|]. split; [|split; [|exact Hall]].
    - intros kv Hin. apply Hkeep.
      destruct (decide (kv.1 = k)) as [Hk|Hk]; [|by apply Hd2].
      destruct (Hdic kv Hin) as [i' Hi'].
      by rewrite (Hinj i' i kv (k, v) Hi' Hkv Hk).
    - intros j [->|Hj]%elem_of_cons; [|by apply Hnew].
      exists (k, v). split; [done|]. by apply Hkeep. }
  destruct (Hfold idxs [] Hvalid) as (dic & -> & _ & Hnew & Hall).
  { by intros ? ?%elem_of_nil. }
  exists dic. split; [done|].
  assert (∀ (j : nat) x, orbits !! j = Some x → (tm <$> orbits) !! j = Some (tm x))
    as Htm by (intros j x Hj; by rewrite list_lookup_fmap, Hj).
  split; [|split; [|split]].
  - intros s (j & Hj)%list_elem_of_lookup_1.
    pose proof (lookup_lt_Some _ _ _ Hj) as Hjlen.
    destruct (Hcov (Z.of_nat j) ltac:(lia)) as (i & Hi & Hij).
    destruct (Hnew i Hi) as ([k w] & Hkv & Hin).
    destruct (poly_lagrange_bounds _ _ _ Hkv) as (_ & a & _ & b & Ha & _ & Hb & _ & Hlb & Hub).
    exists k, w. split; [done|]. simpl in Hlb, Hub. rewrite Hlb, Hub.
    split.
    + eapply (sorted_lookup_le _ (Z.to_nat (i - 3)) j); eauto. lia.
    + eapply (sorted_lookup_le _ j (Z.to_nat (i + 4))); eauto. lia.
  - destruct (Hnew 3) as ([k w] & Hkv & Hin).
    { destruct idxs; simplify_eq/=. by left. }
    destruct (poly_lagrange_bounds _ _ _ Hkv) as (_ & a & _ & _ & Ha & _ & _ & _ & Hlb & _).
    exists k, w. split; [done|]. simpl in Hlb.
    change (Z.to_nat (3 - 3)) with 0%nat in Ha.
    rewrite head_lookup, Ha, Hlb. done.
  - destruct (Hnew (Z.of_nat (length orbits) - 5)) as ([k w] & Hkv & Hin).
    { apply last_Some in Hlast as [l' ->]. apply elem_of_app. right.
      by apply list_elem_of_singleton. }
    destruct (poly_lagrange_bounds _ _ _ Hkv) as (_ & _ & _ & b & _ & _ & Hb & _ & _ & Hub).
    exists k, w. split; [done|]. simpl in Hub.
    replace (Z.to_nat (Z.of_nat (length orbits) - 5 + 4)) with (pred (length orbits))
      in Hb by lia.
    rewrite last_lookup, Hb, Hub. done.
  - intros k w Hin. destruct (Hall _ Hin) as [i Hkv].
    destruct (poly_lagrange_bounds _ _ _ Hkv)
      as (Hr & a & c & b & Ha & Hc & Hb & Hk & Hlb & Hub).
    simpl in Hk, Hlb, Hub. subst k. rewrite Hlb, Hub. split.
    + apply list_elem_of_fmap. exists c. split; [done|].
      by eapply list_elem_of_lookup_2.
    + split.
      * eapply (sorted_lookup_lt _ (Z.to_nat (i - 3)) (Z.to_nat i)); eauto. lia.
      * eapply (sorted_lookup_lt _ (Z.to_nat i) (Z.to_nat (i + 4))); eauto. lia.
Qed.

End FitterMore.

Lemma ex_series_sorted : Sorted Z.lt (tm <$> ex_series 12).
Proof. repeat constructor. Qed.

Lemma fit_series_covers_witness :
  Sorted Z.lt (tm <$> ex_series 12) ∧ (9 ≤ length (ex_series 12))%nat ∧
  ∃ dic, fit_series (ex_series 12) [] = Ok dic.
Proof.
  assert (9 ≤ length (ex_series 12))%nat as Hlen by (vm_compute; lia).
  split; [exact ex_series_sorted|]. split; [exact Hlen|].
  destruct (fit_series_covers (ex_series 12) ex_series_sorted Hlen) as (dic & Heq & _).
  exists dic. exact Heq.
Defined.

(** * When a day can be fitted *)

Section CreateOrbit.
Context {FO : FloatOps}.

Implicit Types (df : list sp3_row).

(** The number of rows of a satellite in a frame. *)
Lemma add_tm_days df (acc : list Z) :
  match foldM (λ acc r, d ← py_int (str_drop 4 (r_date r)); Ok (acc ++ [d])) df acc with
  | Ok day => length day = (length acc + length df)%nat ∧
              ∀ r, r ∈ df → ∃ n, py_int (str_drop 4 (r_date r)) = Ok n
  | Raise e => ∃ r, r ∈ df ∧ py_int (str_drop 4 (r_date r)) = Raise e
  end.
Proof.
  revert acc. induction df as [|r df IH]; intros acc.
  { simpl. split; [lia|]. by intros ? ?%elem_of_nil. }
  cbn [foldM]. destruct (py_int (str_drop 4 (r_date r))) as [n|e] eqn:Hr.
  - cbn [mbind res_bind]. specialize (IH (acc ++ [n])).
    destruct (foldM _ df (acc ++ [n])) as [day|e].
    + destruct IH as [Hlen Hall]. rewrite length_app in Hlen. simpl in *.
      split; [lia|]. intros r' [->|?]%elem_of_cons; [by eexists|by apply Hall].
    + destruct IH as (r' & ? & ?). exists r'. split; [by right|done].
  - cbn [mbind res_bind]. exists r. split; [by left|done].
Qed.

Lemma fst_zip_with {A B C : Type} (h : A → C) (k : A → B → sample)
    (l : list A) (l' : list B) :
  (length l ≤ length l')%nat →
  fst <$> zip_with (λ a b, (h a, k a b)) l l' = h <$> l.
Proof.
  revert l'. induction l as [|a l IH]; intros [|b l'] Hlen; simpl in *;
    [done|done|lia|]. f_equal. apply IH. lia.
Qed.

Lemma add_tm_spec df :
  match add_tm df with
  | Ok rows => df ≠ [] ∧ fst <$> rows = r_svid <$> df ∧
               ∀ r, r ∈ df → ∃ n, py_int (str_drop 4 (r_date r)) = Ok n
  | Raise e => (df = [] ∧ e = ValueError) ∨
               ∃ r, r ∈ df ∧ py_int (str_drop 4 (r_date r)) = Raise e
  end.
Proof.
  unfold add_tm. pose proof (add_tm_days df []) as Hdays.
  destruct (foldM _ df []) as [day|e]; cbn [mbind res_bind]; [|by right].
  destruct Hdays as [Hlen Hall]. simpl in Hlen.
  destruct day as [|d day]; cbn [py_min mbind res_bind].
  { left. by destruct df. }
  split; [by destruct df|]. split; [|done].
  apply (fst_zip_with r_svid). lia.
Qed.

Lemma elem_of_pd_unique_acc (l acc : list string) (s : string) :
  s ∈ fold_left (λ acc s, if decide (s ∈ acc) then acc else acc ++ [s]) l acc
  ↔ s ∈ acc ∨ s ∈ l.
Proof.
  revert acc. induction l as [|a l IH]; intros acc; simpl.
  { split; [by left|]. by intros [?|?%elem_of_nil]. }
  rewrite IH. destruct (decide (a ∈ acc)).
  - rewrite elem_of_cons. split; [intros [?|?]; auto|].
    intros [?|[->|?]]; auto.
  - rewrite elem_of_app, list_elem_of_singleton, elem_of_cons. tauto.
Qed.

Lemma elem_of_pd_unique (l : list string) (s : string) : s ∈ pd_unique l ↔ s ∈ l.
Proof.
  unfold pd_unique. rewrite elem_of_pd_unique_acc.
  split; [by intros [?%elem_of_nil|?]|by right].
Qed.

Lemma length_filter_fst (rows : list (string * sample)) (s : string) :
  length (filter (λ r, r.1 = s) rows)
  = length (filter (λ x, x = s) (fst <$> rows)).
Proof.
  induction rows as [|r rows IH]; [done|]. rewrite fmap_cons.
  destruct (decide (r.1 = s)).
  - rewrite !filter_cons_True by done. simpl. by rewrite IH.
  - by rewrite !filter_cons_False by done.
Qed.

Lemma length_filter_svid df (s : string) :
  length (filter (λ r, r_svid r = s) df)
  = length (filter (λ x, x = s) (r_svid <$> df)).
Proof.
  induction df as [|r df IH]; [done|]. rewrite fmap_cons.
  destruct (decide (r_svid r = s)).
  - rewrite !filter_cons_True by done. simpl. by rewrite IH.
  - by rewrite !filter_cons_False by done.
Qed.

(** The series that the loop of [_create_orbit] builds for a satellite has
    as many samples as the frame has rows of that satellite. *)
Lemma series_length df (rows : list (string * sample)) (s : string) :
  fst <$> rows = r_svid <$> df →
  length (snd <$> filter (λ r, r.1 = s) (merge_sort row_le rows))
  = length (filter (λ r, r_svid r = s) df).
Proof.
  intros Hsvid. rewrite length_fmap.
  rewrite (merge_sort_Permutation row_le rows).
  by rewrite length_filter_fst, Hsvid, length_filter_svid.
Qed.

(** The fit of one series ends with a window map or with IndexError. *)
Lemma fit_series_outcome (orbits : list sample) (dic : window_map) :
  if decide (9 ≤ length orbits)%nat
  then ∃ dic', fit_series orbits dic = Ok dic' ∧ dic' ≠ []
  else fit_series orbits dic = Raise IndexError.
Proof.
  case_decide; [by apply fit_series_long|apply fit_series_short; lia].
Qed.

Lemma create_orbit_loop (sorted : list (string * sample)) (ids : list string)
    (polyXYZ : day_model) :
  let step := λ (polyXYZ : day_model) id_,
    dic ← fit_series (snd <$> filter (λ r, r.1 = id_) sorted)
                     (default [] (polyXYZ !! id_));
    Ok (<[id_ := dic]> polyXYZ) in
  if decide (Forall (λ s, (9 ≤ length (snd <$> filter (λ r, r.1 = s) sorted))%nat)
                    ids)
  then ∃ m, foldM step ids polyXYZ = Ok m ∧
            dom m = list_to_set ids ∪ dom polyXYZ ∧
            ((∀ s dic, polyXYZ !! s = Some dic → dic ≠ []) →
             ∀ s dic, m !! s = Some dic → dic ≠ [])
  else foldM step ids polyXYZ = Raise IndexError.
Proof.
  intros step. subst step. revert polyXYZ.
  induction ids as [|a ids IH]; intros polyXYZ.
  { rewrite decide_True by constructor.
    exists polyXYZ. split; [done|]. split; [|done].
    by rewrite list_to_set_nil, (left_id_L ∅ (∪)). }
  cbn [foldM].
  pose proof (fit_series_outcome (snd <$> filter (λ r, r.1 = a) sorted)
                (default [] (polyXYZ !! a))) as Hfit.
  destruct (decide (9 ≤ length (snd <$> filter (λ r, r.1 = a) sorted))%nat)
    as [Ha|Ha].
  - destruct Hfit as (dic & -> & Hdic). cbn [mbind res_bind].
    specialize (IH (<[a := dic]> polyXYZ)).
    destruct (decide (Forall _ ids)) as [Hall|Hnot].
    + rewrite decide_True by (by constructor).
      destruct IH as (m & -> & Hdom & Hne). exists m. split; [done|]. split.
      * rewrite Hdom, dom_insert_L, list_to_set_cons.
        apply set_eq. intros x. rewrite !elem_of_union. tauto.
      * intros Hinit. apply Hne. intros s dic'.
        destruct (decide (s = a)) as [->|?].
        -- rewrite lookup_insert_eq. by intros [= <-].
        -- rewrite lookup_insert_ne by done. apply Hinit.
    + rewrite decide_False; [done|]. by intros [_ ?]%Forall_cons.
  - rewrite Hfit. cbn [mbind res_bind].
    rewrite decide_False; [done|]. by intros [? _]%Forall_cons.
Qed.

Lemma create_orbit_fits df :
  df ≠ [] →
  (∀ r, r ∈ df → ∃ n, py_int (str_drop 4 (r_date r)) = Ok n) →
  (∀ r, r ∈ df → (9 ≤ length (filter (λ r', r_svid r' = r_svid r) df))%nat) →
  ∃ m : day_model,
    _create_orbit df = Ok m ∧
    dom m = list_to_set (r_svid <$> df) ∧
    ∀ s dic, m !! s = Some dic → dic ≠ [].
Proof.
  intros Hne Hdates Hlong. unfold _create_orbit.
  pose proof (add_tm_spec df) as Hadd.
  destruct (add_tm df) as [rows|e].
  2:{ destruct Hadd as [[? _]|(r & Hr & Hraise)]; [done|].
      destruct (Hdates r Hr) as [n Hn]. congruence. }
  destruct Hadd as (_ & Hsvid & _). cbn [mbind res_bind].
  pose proof (create_orbit_loop (merge_sort row_le rows)
                (pd_unique (fst <$> merge_sort row_le rows)) ∅) as Hloop.
  simpl in Hloop. rewrite decide_True in Hloop.
  - destruct Hloop as (m & -> & Hdom & Hnonempty). exists m. split; [done|].
    split; [|apply Hnonempty; by intros ??; rewrite lookup_empty].
    rewrite Hdom, dom_empty_L, (right_id_L ∅ (∪)).
    apply set_eq. intros s.
    rewrite !elem_of_list_to_set, elem_of_pd_unique.
    by rewrite (merge_sort_Permutation row_le rows), Hsvid.
  - apply Forall_forall. intros s Hs. rewrite elem_of_pd_unique in Hs.
    rewrite (merge_sort_Permutation row_le rows), Hsvid in Hs.
    apply list_elem_of_fmap in Hs as (r & -> & Hr).
    rewrite (series_length df rows _ Hsvid). by apply Hlong.
Qed.






End CreateOrbit.

Lemma ex_frame_dates (n : nat) :
  ∀ r, r ∈ sp3_frame "2020042" "G01" n ex_x ex_y ex_z →
       ∃ d, py_int (str_drop 4 (r_date r)) = Ok d.
Proof. intros r (k & -> & _)%list_elem_of_fmap. by exists 42. Qed.

Lemma ex_frame_count (n : nat) :
  ∀ r, r ∈ sp3_frame "2020042" "G01" n ex_x ex_y ex_z →
       length (filter (λ r', r_svid r' = r_svid r)
                 (sp3_frame "2020042" "G01" n ex_x ex_y ex_z)) = n.
Proof.
  intros r (k & -> & _)%list_elem_of_fmap. unfold sp3_frame. simpl r_svid.
  transitivity (length (seq 0 n)); [|apply length_seq].
  generalize (seq 0 n). intros l.
  induction l as [|a l IH]; [done|].
  rewrite fmap_cons, filter_cons_True by done. simpl. by rewrite IH.
Qed.




(** * Further properties of the model updater *)

Section UpdaterMore.
Context {FO : FloatOps}.
Variable get_file : string → orbit_type → res string.
Variable get_frame : string → res (list sp3_row).

Implicit Types (σ : world) (day : string) (days : list string).

(** X7: a model in the cache is never replaced: whatever a call of
    [_update_orbits] does, and whether it completes or raises, a day cached
    before the call holds the same model after it. *)
Theorem update_orbits_keeps_cache days day (m : day_model) (r : res ()) σ σ' :
  _update_orbits get_file get_frame days σ = (r, σ') →
  orbits σ !! day = Some m →
  orbits σ' !! day = Some m.
Proof.
  intros Hrun Hm.
  destruct (update_orbits_frame get_file get_frame days σ)
    as (r' & orbs' & st' & evs & Heq & _ & _ & Hok).
  rewrite Hrun in Heq. injection Heq as <- ->. simpl.
  destruct r as [[]|e]; [|by subst orbs'].
  destruct Hok as [_ Hlk]. by rewrite Hlk, Hm.
Qed.

(** X8: when the directory lists every requested day, [_update_orbits] completes
    without asking for any product, without a warning and without touching
    the directory; it only loads the days into the cache. *)
Theorem update_orbits_offline days σ :
  (∀ d, d ∈ days → d ∈ persisted_days σ) →
  ∃ orbs',
    _update_orbits get_file get_frame days σ
    = (Ok (), World orbs' (stored σ) (trace σ)) ∧
    ∀ d, d ∈ days → is_Some (orbs' !! d).
Proof.
  intros Hall. rewrite update_orbits_unfold.
  assert (list_to_set days ∖ persisted_days σ = (∅ : gset string)) as ->.
  { apply set_eq. intros d.
    rewrite elem_of_difference, elem_of_list_to_set, elem_of_empty.
    split; [|done]. intros [Hd Hn]. by apply Hn, Hall. }
  rewrite elements_empty. cbn [forM_]. unfold mret, M_ret.
  destruct (cache_days_spec (elements (list_to_set days : gset string)) σ)
    as (orbs' & -> & Hlk).
  exists orbs'. split; [done|]. intros d Hd. rewrite Hlk.
  destruct (orbits σ !! d); [by eexists|].
  rewrite decide_True; [by eexists|]. by apply elem_of_elements, elem_of_list_to_set.
Qed.

Lemma str_app_cons (c : ascii) (s1 s2 : string) :
  String c s1 +:+ s2 = String c (s1 +:+ s2).
Proof. reflexivity. Qed.

Lemma re_split_nonempty (s : string) : re_split s ≠ [].
Proof. induction s as [|c s IH]; simpl; [done|]. case_match; [done|]. by case_match. Qed.

(** The first piece of [d + s]: the whole of [d] when [d] holds no
    separator, and a string shorter than [d] otherwise. *)
Lemma re_split_head (d s : string) :
  ∃ p ps, re_split (d +:+ s) = p :: ps ∧
    if no_sep d
    then ∃ q, re_split s = q :: ps ∧ p = d +:+ q
    else (String.length p < String.length d)%nat.
Proof.
  induction d as [|c d (p & ps & Heq & IH)].
  { change ("" +:+ s) with s. destruct (re_split s) as [|q qs] eqn:Hs.
    - by apply re_split_nonempty in Hs.
    - exists q, qs. split; [done|]. simpl. by exists q. }
  rewrite str_app_cons. cbn [re_split no_sep]. rewrite Heq.
  destruct (is_sep c); cbn [negb andb].
  - eexists _, _. split; [done|]. simpl. lia.
  - eexists _, _. split; [done|]. destruct (no_sep d).
    + destruct IH as (q & Hq & ->). exists q. by rewrite str_app_cons.
    + simpl. lia.
Qed.

Lemma day_of_filename_get_filename day :
  ∃ p, day_of_filename (_get_filename day) = Some p ∧
       if no_sep day then p = day else (String.length p < String.length day)%nat.
Proof.
  destruct (re_split_head day ".json") as (p & ps & Heq & Hp).
  exists p. split.
  - unfold day_of_filename, _get_filename.
    assert (∀ x, String.prefix "orbits_" ("orbits_" +:+ x) = true) as ->
      by (intros x; destruct x; reflexivity).
    change (re_split ("orbits_" +:+ day +:+ ".json"))
      with ("orbits"%string :: re_split (day +:+ ".json")).
    by rewrite Heq.
  - destruct (no_sep day); [|done].
    destruct Hp as (q & Hq & ->). vm_compute in Hq. injection Hq as <- _.
    clear. induction day as [|c d IH]; [done|]. rewrite str_app_cons. by f_equal.
Qed.

Lemma filename_round_trip_aux day :
  no_sep day = true → day_of_filename (_get_filename day) = Some day.
Proof.
  intros Hclean. destruct (day_of_filename_get_filename day) as (p & -> & Hp).
  rewrite Hclean in Hp. by subst p.
Qed.

(** X9: the names of the records and the listing of the directory agree exactly
    on the days that hold neither '_' nor '.': for such a day [metadata]
    reads the day back from the name [_get_filename] gives its record, and
    for any other day it reads a shorter string. *)
Theorem filename_round_trip day :
  (day_of_filename (_get_filename day) = Some day ↔ no_sep day = true) ∧
  ∃ p, day_of_filename (_get_filename day) = Some p ∧
       if no_sep day then p = day
       else (String.length p < String.length day)%nat.
Proof.
  destruct (day_of_filename_get_filename day) as (p & Heq & Hp).
  split; [|by exists p]. rewrite Heq.
  destruct (no_sep day).
  - by subst p.
  - split; [|done]. intros [= ->]. lia.
Qed.

Lemma elem_of_persisted_days σ day :
  day ∈ persisted_days σ ↔
  ∃ f, f ∈ dom (stored σ) ∧ day_of_filename f = Some day.
Proof.
  unfold persisted_days. rewrite elem_of_list_to_set, list_elem_of_omap.
  by setoid_rewrite elem_of_elements.
Qed.

Lemma saved_day_listed σ day :
  no_sep day = true → is_Some (stored σ !! _get_filename day) →
  day ∈ persisted_days σ.
Proof.
  intros Hclean Hsome. apply elem_of_persisted_days.
  exists (_get_filename day). split; [by apply elem_of_dom|].
  by apply filename_round_trip_aux.
Qed.

Lemma sort_items_ordered (dic : window_map) :
  NoDup (fst <$> dic) → Sorted Z.lt (fst <$> sort_items dic).
Proof.
  intros Hnd. apply sorted_le_nodup.
  - apply (Sorted_fmap fst key_le Z.le); [by intros ??|].
    assert (Total key_le) by (intros a b; unfold key_le; lia).
    apply (Sorted_merge_sort key_le).
  - pose proof (merge_sort_Permutation key_le dic) as Hperm.
    unfold sort_items. by rewrite Hperm.
Qed.

(** The loop of [_create_orbit] over the satellites keeps every window map
    non-empty and with distinct keys. *)
Lemma create_orbit_loop_keys (sorted : list (string * sample)) (ids : list string)
    (polyXYZ m : day_model) :
  foldM (λ (polyXYZ : day_model) id_,
           dic ← fit_series (snd <$> filter (λ r, r.1 = id_) sorted)
                            (default [] (polyXYZ !! id_));
           Ok (<[id_ := dic]> polyXYZ)) ids polyXYZ = Ok m →
  (∀ s dic, polyXYZ !! s = Some dic → dic ≠ [] ∧ NoDup (fst <$> dic)) →
  ∀ s dic, m !! s = Some dic → dic ≠ [] ∧ NoDup (fst <$> dic).
Proof.
  revert polyXYZ. induction ids as [|a ids IH]; intros polyXYZ Hfold Hinv.
  { simpl in Hfold. by simplify_eq. }
  cbn [foldM] in Hfold.
  destruct (fit_series (snd <$> filter (λ r, r.1 = a) sorted)
              (default [] (polyXYZ !! a))) as [dic'|e] eqn:Hfit; [|done].
  cbn [mbind res_bind] in Hfold.
  eapply IH; [exact Hfold|].
  intros s dic. destruct (decide (s = a)) as [->|Hne].
  - rewrite lookup_insert_eq. intros [= <-]. split.
    + pose proof (fit_series_outcome (snd <$> filter (λ r, r.1 = a) sorted)
                    (default [] (polyXYZ !! a))) as Hout.
      case_decide; [|congruence].
      destruct Hout as (d & Hd & Hnil). congruence.
    + eapply fit_series_keys; [|exact Hfit].
      destruct (polyXYZ !! a) as [d|] eqn:Ha; simpl; [by eapply Hinv|constructor].
  - rewrite lookup_insert_ne by done. apply Hinv.
Qed.

(** Whatever frame it is given, a model that [_create_orbit] returns has,
    once its window maps are sorted as the updater sorts them, non-empty
    window maps with strictly increasing keys. *)
Lemma create_orbit_ordered df (m : day_model) :
  _create_orbit df = Ok m → ordered_model (sort_items <$> m).
Proof.
  unfold _create_orbit. destruct (add_tm df) as [rows|e]; [|done].
  cbn [mbind res_bind]. intros Hfold s dic.
  rewrite lookup_fmap. destruct (m !! s) as [d|] eqn:Hs; [|done].
  intros [= <-].
  destruct (create_orbit_loop_keys _ _ _ _ Hfold) with (s := s) (dic := d)
    as [Hne Hnd]; [by intros ? ?; rewrite lookup_empty|done|].
  split; [|by apply sort_items_ordered].
  intros Hnil. apply Hne.
  pose proof (merge_sort_Permutation key_le d) as Hperm.
  unfold sort_items in Hnil. rewrite Hnil in Hperm.
  by apply Permutation_nil_l in Hperm.
Qed.

Lemma fetches_app evs evs' : fetches (evs ++ evs') = fetches evs ++ fetches evs'.
Proof. apply omap_app. Qed.

(** The nested [try]/[except]: the products asked for are those of the day,
    each at most once. *)
Lemma acquire_detail σ day :
  ∃ evs tys, acquire get_file day σ = (first_product get_file day, logged σ evs) ∧
             fetches evs = (λ ty, (day, ty)) <$> tys ∧ NoDup tys.
Proof.
  unfold first_product.
  destruct (get_file day final) as [sp3|e1] eqn:H1.
  { eexists _, [final]. split; [by apply acquire_final|].
    split; [done|]. apply NoDup_singleton. }
  destruct (get_file day rapid) as [sp3|e2] eqn:H2.
  { eexists _, [final; rapid]. split; [by eapply acquire_rapid|].
    split; [done|].
    apply NoDup_ListNoDup; repeat constructor; simpl; intuition congruence. }
  eexists _, [final; rapid; ultra]. split; [by eapply acquire_ultra|].
  split; [done|].
  apply NoDup_ListNoDup; repeat constructor; simpl; intuition congruence.
Qed.

Lemma build_day_detail σ day :
  ∃ r evs st' tys,
    build_day get_file get_frame day σ = (r, World (orbits σ) st' (trace σ ++ evs)) ∧
    fetches evs = (λ ty, (day, ty)) <$> tys ∧ NoDup tys ∧
    match r with
    | Ok _ => ∃ m, day_record get_file get_frame day = Ok m ∧
                   st' = <[_get_filename day := m]> (stored σ) ∧ ordered_model m
    | Raise e => day_record get_file get_frame day = Raise e ∧ st' = stored σ
    end.
Proof.
  destruct (acquire_detail σ day) as (evs & tys & Hacq & Hevs & Hnd).
  unfold build_day, day_record, mbind at 1, M_bind at 1. rewrite Hacq.
  destruct (first_product get_file day) as [sp3|e]; [|by eexists _, _, _, _].
  unfold lift, mbind, M_bind.
  destruct (get_frame sp3) as [df|e]; [|by eexists _, _, _, _].
  destruct (_create_orbit df) as [unsorted|e] eqn:Hc; [|by eexists _, _, _, _].
  unfold _save_orbit, logged. simpl. eexists _, _, _, _.
  split; [done|]. split; [done|]. split; [done|].
  eexists. split; [done|]. split; [done|]. by eapply create_orbit_ordered.
Qed.

(** The first loop over distinct days: no product is asked for twice, the
    records of other names are left alone, and when the loop completes each
    day has a record that is an ordered model. *)
Lemma build_days_detail (l : list string) σ :
  NoDup l →
  ∃ r evs st',
    forM_ (build_day get_file get_frame) l σ
    = (r, World (orbits σ) st' (trace σ ++ evs)) ∧
    NoDup (fetches evs) ∧
    (∀ d ty, (d, ty) ∈ fetches evs → d ∈ l) ∧
    (∀ f, (∀ d, d ∈ l → f ≠ _get_filename d) → st' !! f = stored σ !! f) ∧
    match r with
    | Ok _ => ∀ d, d ∈ l → ∃ m, day_record get_file get_frame d = Ok m ∧
                                st' !! _get_filename d = Some m ∧ ordered_model m
    | Raise e => ∃ d, d ∈ l ∧ day_record get_file get_frame d = Raise e
    end.
Proof.
  intros Hnd. revert σ. induction Hnd as [|a l Ha Hnd IH]; intros σ.
  { exists (Ok ()), [], (stored σ). simpl. unfold mret, M_ret.
    rewrite app_nil_r. split; [by destruct σ|]. split; [constructor|].
    split; [by intros ? ? ?%elem_of_nil|]. split; [done|].
    by intros ? ?%elem_of_nil. }
  destruct (build_day_detail σ a) as (r & evs & st1 & tys & Hb & Hevs & Htys & Hst).
  assert (∀ d ty, (d, ty) ∈ fetches evs → d = a) as Hday.
  { intros d ty. rewrite Hevs, list_elem_of_fmap. by intros (? & [= -> _] & _). }
  assert (NoDup (fetches evs)) as Hnd1.
  { rewrite Hevs. apply NoDup_fmap_2; [|done]. by intros ? ? [= ->]. }
  cbn [forM_]. unfold mbind, M_bind. rewrite Hb.
  destruct r as [[]|e].
  - destruct Hst as (m & Hrec & -> & Hm).
    destruct (IH (World (orbits σ) (<[_get_filename a := m]> (stored σ)) (trace σ ++ evs)))
      as (r' & evs' & st' & Hf & Hnd' & Hevs' & Hoth & Hok).
    simpl in *. rewrite Hf. exists r', (evs ++ evs'), st'.
    rewrite app_assoc. split; [done|]. rewrite fetches_app.
    split; [|split; [|split]].
    + apply NoDup_app. split; [done|]. split; [|done].
      intros [d ty] Hin Hin'. apply Hday in Hin as ->. by apply Hevs' in Hin'.
    + intros d ty [Hin|Hin]%elem_of_app; apply elem_of_cons;
        [left; by eapply Hday|right; by eapply Hevs'].
    + intros f Hf'. rewrite Hoth.
      * apply lookup_insert_ne. intros <-. eapply Hf'; [|done]. by left.
      * intros d Hd. apply Hf'. by right.
    + destruct r' as [[]|e].
      * intros d [->|Hd]%elem_of_cons; [|by apply Hok].
        exists m. split; [done|]. split; [|done].
        rewrite Hoth; [by apply lookup_insert_eq|].
        intros d Hd Heq. apply get_filename_inj in Heq as ->. done.
      * destruct Hok as (d & Hd & Hraise). exists d. split; [by right|done].
  - destruct Hst as [Hrec ->]. exists (Raise e), evs, (stored σ). split; [done|].
    split; [done|]. split; [|split; [done|]].
    + intros d ty Hin. apply elem_of_cons. left. by eapply Hday.
    + exists a. split; [by left|done].
Qed.

(** A call of [_update_orbits], in the same detail. *)
Lemma update_orbits_detail days σ :
  ∃ r orbs' st' evs,
    _update_orbits get_file get_frame days σ
    = (r, World orbs' st' (trace σ ++ evs)) ∧
    NoDup (fetches evs) ∧
    (∀ f, (∀ d, d ∈ days → d ∉ persisted_days σ → f ≠ _get_filename d) →
          st' !! f = stored σ !! f) ∧
    match r with
    | Ok _ =>
        ∀ d, d ∈ days → d ∉ persisted_days σ →
             ∃ m, day_record get_file get_frame d = Ok m ∧
                  st' !! _get_filename d = Some m ∧ ordered_model m ∧
                  (orbits σ !! d = None → orbs' !! d = Some m)
    | Raise e =>
        ∃ d, d ∈ days ∧ (d ∉ persisted_days σ) ∧
             day_record get_file get_frame d = Raise e
    end.
Proof.
  rewrite update_orbits_unfold.
  destruct (build_days_detail
              (elements (list_to_set days ∖ persisted_days σ : gset string)) σ)
    as (r & evs & st1 & -> & Hnd & _ & Hoth & Hok); [apply NoDup_elements|].
  assert (∀ d, d ∈ elements (list_to_set days ∖ persisted_days σ : gset string)
               ↔ d ∈ days ∧ d ∉ persisted_days σ) as Hmiss.
  { intros d. by rewrite elem_of_elements, elem_of_difference, elem_of_list_to_set. }
  assert (∀ f, (∀ d, d ∈ days → d ∉ persisted_days σ → f ≠ _get_filename d) →
               st1 !! f = stored σ !! f) as Hoth'.
  { intros f Hf. apply Hoth. intros d [? ?]%Hmiss. by apply Hf. }
  destruct r as [[]|e].
  2:{ destruct Hok as (d & [Hd Hn]%Hmiss & Hraise).
      eexists _, _, _, _. split; [done|]. split; [done|]. split; [done|].
      by exists d. }
  destruct (cache_days_spec (elements (list_to_set days : gset string))
              (World (orbits σ) st1 (trace σ ++ evs))) as (orbs' & -> & Hlk).
  simpl in *. exists (Ok ()), orbs', st1, evs.
  split; [done|]. split; [done|]. split; [done|].
  intros d Hd Hn. destruct (Hok d) as (m & Hrec & Hm & Hord); [by apply Hmiss|].
  exists m. split; [done|]. split; [done|]. split; [done|]. intros Hnone.
  rewrite Hlk, Hnone, decide_True, Hm; [done|].
  by apply elem_of_elements, elem_of_list_to_set.
Qed.

(** X10: one call of [_update_orbits] asks for no product twice, whether it
    completes or raises and however often a day is repeated in [days]. *)
Theorem update_orbits_no_refetch days σ :
  ∃ r σ' evs,
    _update_orbits get_file get_frame days σ = (r, σ') ∧
    trace σ' = trace σ ++ evs ∧
    NoDup (fetches evs).
Proof.
  destruct (update_orbits_detail days σ) as (r & orbs' & st' & evs & Heq & Hnd & _).
  by eexists _, _, _.
Qed.

(** X11: the records that a completed call of [_update_orbits] writes can be
    searched: a requested day that the directory did not list has a record
    whose window maps are non-empty with strictly increasing keys, and this
    record is the model cached for the day unless one was cached before. *)
Theorem update_orbits_writes_ordered days day σ σ' :
  _update_orbits get_file get_frame days σ = (Ok (), σ') →
  day ∈ days → day ∉ persisted_days σ →
  ∃ m : day_model,
    stored σ' !! _get_filename day = Some m ∧ ordered_model m ∧
    (orbits σ !! day = None → orbits σ' !! day = Some m).
Proof.
  intros Hrun Hd Hn.
  destruct (update_orbits_detail days σ)
    as (r & orbs' & st' & evs & Heq & _ & _ & Hok).
  rewrite Hrun in Heq. injection Heq as <- ->. simpl.
  destruct (Hok day Hd Hn) as (m & _ & ? & ? & ?). by exists m.
Qed.

(** X12: what a call of [_update_orbits] computes: when it completes, every
    requested day that the directory did not list has for record the result
    of the loop body for that day; when it raises, the exception is the one
    that the loop body raises for one of these days.  So the call completes
    exactly when the loop body does for every such day. *)
Theorem update_orbits_outcome days σ :
  ∃ r σ',
    _update_orbits get_file get_frame days σ = (r, σ') ∧
    match r with
    | Ok _ =>
        ∀ d, d ∈ days → d ∉ persisted_days σ →
             ∃ m, day_record get_file get_frame d = Ok m ∧
                  stored σ' !! _get_filename d = Some m
    | Raise e =>
        ∃ d, d ∈ days ∧ (d ∉ persisted_days σ) ∧
             day_record get_file get_frame d = Raise e
    end.
Proof.
  destruct (update_orbits_detail days σ)
    as (r & orbs' & st' & evs & Heq & _ & _ & Hok).
  eexists _, _. split; [exact Heq|]. destruct r as [[]|e]; [|done].
  intros d Hd Hn. destruct (Hok d Hd Hn) as (m & ? & ? & _). by exists m.
Qed.

(** X13: records are written once: when the requested days hold no separator of
    the file names, a call of [_update_orbits] leaves every record that the
    directory already holds as it is, whether the call completes or
    raises. *)
Theorem update_orbits_write_once days (f : string) (m : day_model)
    (r : res ()) σ σ' :
  (∀ d, d ∈ days → no_sep d = true) →
  _update_orbits get_file get_frame days σ = (r, σ') →
  stored σ !! f = Some m →
  stored σ' !! f = Some m.
Proof.
  intros Hclean Hrun Hm.
  destruct (update_orbits_detail days σ)
    as (r' & orbs' & st' & evs & Heq & _ & Hoth & _).
  rewrite Hrun in Heq. injection Heq as <- ->. simpl.
  rewrite Hoth; [done|]. intros d Hd Hn ->. apply Hn.
  apply saved_day_listed; [by apply Hclean|by eexists].
Qed.

(** X14: a completed call need not be repeated: when the requested days hold no
    separator of the file names, a second call of [_update_orbits] with the
    same days completes and changes nothing, neither the cache nor the
    directory, and it asks for no product. *)
Theorem update_orbits_idempotent days σ σ' :
  (∀ d, d ∈ days → no_sep d = true) →
  _update_orbits get_file get_frame days σ = (Ok (), σ') →
  _update_orbits get_file get_frame days σ' = (Ok (), σ').
Proof.
  intros Hclean Hrun.
  destruct (update_orbits_frame get_file get_frame days σ)
    as (r & orbs' & st' & evs & Heq & _ & Hdom & Hok).
  rewrite Hrun in Heq. injection Heq as <- ->. destruct Hok as [Hrec Hlk].
  set (σ' := World orbs' st' (trace σ ++ evs)).
  assert (∀ d, d ∈ days → d ∈ persisted_days σ') as Hall.
  { intros d Hd. destruct (Hrec d Hd) as [Hp|Hs].
    - by apply (persisted_days_mono σ σ').
    - apply saved_day_listed; [by apply Hclean|done]. }
  rewrite update_orbits_unfold.
  assert (list_to_set days ∖ persisted_days σ' = (∅ : gset string)) as ->.
  { apply set_eq. intros d.
    rewrite elem_of_difference, elem_of_list_to_set, elem_of_empty.
    split; [|done]. intros [Hd Hn]. by apply Hn, Hall. }
  rewrite elements_empty. cbn [forM_]. unfold mret, M_ret.
  destruct (cache_days_spec (elements (list_to_set days : gset string)) σ')
    as (orbs'' & -> & Hlk').
  f_equal. unfold σ'. simpl. f_equal. apply map_eq. intros d.
  rewrite Hlk'. simpl. destruct (orbs' !! d) eqn:Hd; [done|].
  destruct (decide (d ∈ elements (list_to_set days : gset string))) as [Hin|]; [|done].
  apply elem_of_elements, elem_of_list_to_set in Hin.
  rewrite Hlk in Hd. destruct (orbits σ !! d); [done|].
  by rewrite decide_True in Hd.
Qed.

End UpdaterMore.

Lemma ex_frame_fits : ∃ m : day_model, _create_orbit ex_frame = Ok m.
Proof.
  destruct (create_orbit_fits ex_frame) as (m & Heq & _).
  - discriminate.
  - apply (ex_frame_dates 12).
  - intros r Hr. unfold ex_frame. rewrite (ex_frame_count 12 r Hr). lia.
  - by exists m.
Qed.

Lemma ex_day_record :
  ∃ m : day_model, day_record ex_network ex_parse "2020042" = Ok m.
Proof.
  destruct ex_frame_fits as [m Hm]. exists (sort_items <$> m).
  unfold day_record, first_product, ex_network, ex_parse. cbv beta iota.
  by rewrite Hm.
Qed.

(** With the rapid product at hand the day 2020042 is built, from an empty
    directory and from the directory that holds the day before. *)
Lemma ex_run (σ : world) :
  ∃ σ', _update_orbits ex_network ex_parse ["2020042"] σ = (Ok (), σ').
Proof.
  destruct (update_orbits_detail ex_network ex_parse ["2020042"] σ)
    as (r & orbs' & st' & evs & Heq & _ & _ & Hok).
  destruct r as [[]|e]; [by eexists|].
  destruct Hok as (d & ->%list_elem_of_singleton & _ & Hraise).
  destruct ex_day_record as [m Hm]. congruence.
Qed.

Lemma fresh_lists_nothing (day : string) :
  day ∉ persisted_days (FO := Exact.exact_float) fresh.
Proof.
  assert (persisted_days (FO := Exact.exact_float) fresh = ∅) as -> by reflexivity.
  apply not_elem_of_empty.
Qed.

Lemma update_orbits_keeps_cache_witness :
  orbits ex_world !! "2020042" = Some {[ "G01"%string := ex_orbit ]} ∧
  orbits (_update_orbits no_network no_frame ["2020042"] ex_world).2 !! "2020042"
  = Some {[ "G01"%string := ex_orbit ]}.
Proof.
  assert (orbits ex_world !! "2020042" = Some {[ "G01"%string := ex_orbit ]}) as Hm
    by apply lookup_singleton_eq.
  split; [exact Hm|].
  exact (update_orbits_keeps_cache no_network no_frame ["2020042"] "2020042" _ _
           ex_world _ (surjective_pairing _) Hm).
Defined.

Lemma update_orbits_offline_witness :
  (∀ d, d ∈ ["2020042"%string] → d ∈ persisted_days ex_stray) ∧
  ∃ orbs',
    _update_orbits no_network no_frame ["2020042"] ex_stray
    = (Ok (), World orbs' (stored ex_stray) (trace ex_stray)) ∧
    ∀ d, d ∈ ["2020042"%string] → is_Some (orbs' !! d).
Proof.
  assert (∀ d, d ∈ ["2020042"%string] → d ∈ persisted_days ex_stray) as Hall.
  { intros d ->%list_elem_of_singleton. apply elem_of_persisted_days.
    exists "orbits_2020042.txt"%string. split; [|reflexivity].
    simpl. rewrite dom_singleton_L. by apply elem_of_singleton. }
  split; [exact Hall|].
  exact (update_orbits_offline no_network no_frame ["2020042"] ex_stray Hall).
Defined.

Lemma update_orbits_writes_ordered_witness :
  "2020042" ∈ ["2020042"%string] ∧
  ("2020042" ∉ persisted_days (FO := Exact.exact_float) fresh) ∧
  ∃ (σ' : world) (m : day_model),
    _update_orbits ex_network ex_parse ["2020042"] fresh = (Ok (), σ') ∧
    stored σ' !! _get_filename "2020042" = Some m ∧ ordered_model m.
Proof.
  assert ("2020042" ∈ ["2020042"%string]) as Hin by (by left).
  pose proof (fresh_lists_nothing "2020042") as Hmiss.
  split; [exact Hin|]. split; [exact Hmiss|].
  destruct (ex_run fresh) as [σ' Hrun].
  destruct (update_orbits_writes_ordered ex_network ex_parse
              ["2020042"] "2020042" fresh σ' Hrun Hin Hmiss) as (m & Hst & Hord & _).
  exists σ', m. split; [exact Hrun|]. split; [exact Hst|exact Hord].
Defined.

Lemma update_orbits_write_once_witness :
  (∀ d, d ∈ ["2020042"%string] → no_sep d = true) ∧
  stored ex_yesterday !! "orbits_2020041.json" = Some ∅ ∧
  stored (_update_orbits ex_network ex_parse ["2020042"] ex_yesterday).2
    !! "orbits_2020041.json" = Some ∅.
Proof.
  assert (∀ d, d ∈ ["2020042"%string] → no_sep d = true) as Hclean
    by (by intros d ->%list_elem_of_singleton).
  assert (stored ex_yesterday !! "orbits_2020041.json" = Some ∅) as Hm
    by apply lookup_singleton_eq.
  split; [exact Hclean|]. split; [exact Hm|].
  exact (update_orbits_write_once ex_network ex_parse ["2020042"] _ _ _
           ex_yesterday _ Hclean (surjective_pairing _) Hm).
Defined.

Lemma update_orbits_idempotent_witness :
  (∀ d, d ∈ ["2020042"%string] → no_sep d = true) ∧
  ∃ σ' : world,
    _update_orbits ex_network ex_parse ["2020042"] fresh = (Ok (), σ') ∧
    _update_orbits ex_network ex_parse ["2020042"] σ' = (Ok (), σ').
Proof.
  assert (∀ d, d ∈ ["2020042"%string] → no_sep d = true) as Hclean
    by (by intros d ->%list_elem_of_singleton).
  split; [exact Hclean|].
  destruct (ex_run fresh) as [σ' Hrun]. exists σ'. split; [exact Hrun|].
  exact (update_orbits_idempotent ex_network ex_parse ["2020042"] fresh σ'
           Hclean Hrun).
Defined.

(** A day that holds a separator is listed under another name, so the
    updater does not see its record and asks for its products again. *)
Example update_orbits_unclean_day :
  let σ : world := World ∅ {[ _get_filename "2020_042" := ∅ ]} [] in
  day_of_filename (_get_filename "2020_042") = Some "2020"%string ∧
  stored σ !! _get_filename "2020_042" = Some ∅ ∧
  _update_orbits no_network no_frame ["2020_042"] σ
  = (Raise URLError,
     logged σ [GetSp3File "2020_042" final; Warn FinalNotAvailable;
               GetSp3File "2020_042" rapid; Warn RapidNotAvailable;
               GetSp3File "2020_042" ultra]).
Proof. split; [reflexivity|]. split; reflexivity. Qed.

(** * Further properties of the position evaluator *)

Section EvaluatorMore.
Context {FO : FloatOps}.

Implicit Types (σ : world) (orbit : window_map).

Lemma broadcast_rows_length (m : nat) (result : ndarray) (vals : list (list float)) :
  broadcast_rows m result = Ok vals → length vals = m.
Proof.
  destruct result as [v|rows]; simpl.
  - destruct v as [|a [|b [|c [|d v]]]]; intros; simplify_eq;
      by rewrite length_replicate.
  - case_decide; [by intros; simplify_eq|].
    destruct rows as [|r [|r' rows]]; intros; simplify_eq.
    by rewrite length_replicate.
Qed.

(** A batch of one group: [_locate_sat] makes one call of
    [_locate_sat_vectorised] and broadcasts its result over all the rows. *)
Lemma locate_sat_one_group (day svid : string) (times : list Z) σ :
  times ≠ [] →
  _locate_sat ((λ t, Query day t svid) <$> times) σ
  = match _locate_sat_vectorised day times svid σ with
    | (Ok result, σ') => (broadcast_rows (length times) result, σ')
    | (Raise e, σ') => (Raise e, σ')
    end.
Proof.
  intros Hne. unfold _locate_sat.
  set (qs := (λ t, Query day t svid) <$> times).
  assert (qs ≠ []) as Hqs by (by destruct times).
  rewrite (np_unique_const (q_day <$> qs) day), (np_unique_const (q_svid <$> qs) svid);
    try (by destruct times);
    try (by intros s (q & -> & (t & -> & _)%list_elem_of_fmap)%list_elem_of_fmap).
  cbn [foldM_M]. unfold mbind at 1, M_bind at 1.
  unfold mbind at 1, M_bind at 1. unfold mbind at 1, M_bind at 1.
  assert (filter (λ q, q_day q = day ∧ q_svid q = svid) qs = qs) as ->.
  { subst qs. clear. induction times as [|t times IH]; [done|].
    rewrite fmap_cons, filter_cons_True by done. by rewrite IH. }
  assert (q_time <$> qs = times) as Hq.
  { subst qs. clear. induction times as [|t times IH]; [done|].
    rewrite !fmap_cons. cbn [q_time]. f_equal. exact IH. }
  rewrite Hq. clear Hq.
  destruct (_locate_sat_vectorised day times svid σ) as [[result|e] σ']; [|done].
  unfold lift, assign_masked, mret, M_ret.
  assert ((λ q, bool_decide (q_day q = day ∧ q_svid q = svid)) <$> qs
          = (λ _, true) <$> ((λ _, [nan; nan; nan]) <$> qs)) as ->.
  { subst qs. clear. induction times as [|t times IH]; [done|].
    rewrite !fmap_cons. cbn [q_day q_svid].
    rewrite bool_decide_eq_true_2 by done. f_equal. exact IH. }
  assert (length (filter (λ b : bool, b = true)
                    ((λ _, true) <$> ((λ _ : query, [nan; nan; nan]) <$> qs)))
          = length times) as Hcount.
  { subst qs. clear. induction times as [|t times IH]; [done|].
    rewrite !fmap_cons, filter_cons_True by done. simpl. by rewrite IH. }
  rewrite Hcount. clear Hcount.
  assert (length ((λ _ : query, [nan; nan; nan]) <$> qs) = length times) as Hlen
    by (subst qs; by rewrite !length_fmap).
  destruct (broadcast_rows (length times) result) as [vals|e] eqn:Hb; [|done].
  cbn [mbind res_bind]. rewrite scatter_all; [done|].
  rewrite Hlen. by eapply broadcast_rows_length.
Qed.

Lemma evaluate_length (w : poly_dict) (time : Z) (r : list float) :
  evaluate w time = Ok r → length r = 3%nat.
Proof.
  unfold evaluate. intros Hev.
  destruct (predict_dim _ (coef_x w) _ _); [|done].
  destruct (predict_dim _ (coef_y w) _ _); [|done].
  destruct (predict_dim _ (coef_z w) _ _); [|done].
  cbn [mbind res_bind] in Hev. by simplify_eq.
Qed.

(** X15: a batch of queries for one day and one satellite that the store holds,
    with a non-empty window map whose windows have coefficients, is answered
    by [_locate_sat] without an exception: the rows that
    [_locate_sat_vectorised] computes are written to the output as they
    are, one row of three numbers per query, in the order of the queries,
    and only warnings are issued. *)
Theorem locate_sat_single_group (day svid : string) (times : list Z)
    (m : day_model) orbit σ :
  times ≠ [] →
  orbits σ !! day = Some m → m !! svid = Some orbit →
  orbit ≠ [] → Forall (λ kv, wf_window kv.2) orbit →
  ∃ rows evs,
    _locate_sat_vectorised day times svid σ = (Ok (Arr2 rows), logged σ evs) ∧
    _locate_sat ((λ t, Query day t svid) <$> times) σ = (Ok rows, logged σ evs) ∧
    length rows = length times ∧
    Forall (λ r, length r = 3%nat) rows ∧
    Forall is_warn evs.
Proof.
  intros Hne Hm Ho Horb Hwf.
  destruct (nearest_all orbit times Horb) as (idx & Hidx & Hall).
  destruct (predict_rows orbit svid day times idx σ Hwf Hall)
    as (rows & evs & Hrows & Hspec).
  assert (length rows = length times) as Hlen
    by (symmetry; by eapply Forall2_length).
  assert (_locate_sat_vectorised day times svid σ = (Ok (Arr2 rows), logged σ evs))
    as Hvec.
  { unfold _locate_sat_vectorised, mbind at 1, M_bind at 1, get_orbits.
    rewrite Hm. cbn [option_bind mbind]. simpl. rewrite Ho.
    unfold mbind at 1, M_bind at 1, lift. rewrite Hidx.
    unfold mbind at 1, M_bind at 1. rewrite Hrows.
    destruct rows; [by destruct times|reflexivity]. }
  exists rows, evs. split; [done|]. split; [|split; [done|split]].
  - rewrite locate_sat_one_group, Hvec by done. simpl.
    by rewrite decide_True.
  - apply Forall_forall. intros r Hr.
    apply list_elem_of_lookup in Hr as [j Hj].
    destruct (Forall2_lookup_r _ _ _ _ _ Hspec Hj)
      as (time & _ & i & k & w & _ & _ & Hout & Hin).
    destruct (decide (time > ub w ∨ time < lb w)) as [Ht|Ht].
    + by destruct (Hout Ht) as [-> _].
    + eapply evaluate_length, Hin. lia.
  - destruct (warns_only_locate_sat_vectorised day times svid σ)
      as (r' & evs' & Heq & Hw).
    rewrite Hvec in Heq.
    assert (trace (logged σ evs) = trace (logged σ evs')) as Htr by congruence.
    simpl in Htr. by apply app_inv_head in Htr as ->.
Qed.

(** X16: a batch of two queries, or of four and more, for one day and one
    satellite that the store does not hold: [_locate_sat] warns once and
    raises ValueError, whatever the store, the day and the satellite.  The
    warning comes first and the exception after it, be the query times
    floats, where the array of NaN of shape (n,) cannot be written to the n
    rows of the output, or integers, where NaN cannot be written to the
    array itself. *)
Theorem locate_sat_missing_sizes (day svid : string) (times : list Z) σ :
  (length times = 2 ∨ 4 ≤ length times)%nat →
  orbits σ !! day ≫= (.!! svid) = None →
  _locate_sat ((λ t, Query day t svid) <$> times) σ
  = (Raise ValueError, logged σ [Warn (OrbitNotAvailable svid day)]).
Proof.
  intros Hlen Hnone.
  assert (times ≠ []) as Hne by (intros ->; simpl in Hlen; lia).
  rewrite locate_sat_one_group, (locate_sat_vectorised_missing day svid times σ Hnone)
    by done.
  unfold logged. f_equal.
  destruct times as [|t1 [|t2 [|t3 [|t4 times]]]]; simpl in Hlen; try lia; done.
Qed.

End EvaluatorMore.

(** * The SP3 products *)

Lemma rsplit_dot_app (s t head last : string) :
  rsplit_dot t = [head; last] → rsplit_dot (s +:+ t) = [s +:+ head; last].
Proof.
  intros Ht. induction s as [|c s IH]; [done|].
  change (String c s +:+ t) with (String c (s +:+ t)).
  cbn [rsplit_dot]. by rewrite IH.
Qed.

(** X17: whatever the date, and whatever the week and the day of the week that
    the date conversion gives, the name of a final or of a rapid product
    ends in ".gz" and the name of an ultra product in ".Z": [_get_sp3_file]
    never fails on the extension, it unpacks final and rapid products with
    gzip and ultra products with unlzw. *)
Theorem sp3_decompressor (week day : string) (ty : orbit_type) (x : string) :
  decompressor (_sp3_filename week day ty x)
  = Ok match ty with
       | final | rapid => gzip
       | ultra => unlzw
       end.
Proof.
  unfold decompressor, _sp3_filename. destruct ty.
  - rewrite (rsplit_dot_app "ESA0MGNFIN_" _ (x +:+ "0000_01D_05M_ORB.SP3") "gz");
      [done|]. by apply rsplit_dot_app.
  - rewrite (rsplit_dot_app "GBM0MGXRAP_" _ (x +:+ "0000_01D_05M_ORB.SP3") "gz");
      [done|]. by apply rsplit_dot_app.
  - rewrite (rsplit_dot_app "esu" _ (week +:+ day +:+ "_00.sp3") "Z"); [done|].
    by apply rsplit_dot_app, rsplit_dot_app.
Qed.

Section ParserFacts.
Context {FO : FloatOps}.
Variable get_date : string → res string.
Variable get_time : string → res Z.
Variable getXYS : string → res (string * float * float * float * float).

Implicit Types (st : parser) (line : string) (lines : list string).

(** The coordinates of a row are those that [getXYS] reads from a line. *)
Local Abbreviation row_of_line :=
  (λ (line : string) (r : df_row),
     getXYS line = Ok (c_svid r, c_x r, c_y r, c_z r, c_clockerror r)).

Lemma parse_lines_app lines lines' st :
  parse_lines get_date get_time getXYS (lines ++ lines') st
  = match parse_lines get_date get_time getXYS lines st with
    | Returns st' => parse_lines get_date get_time getXYS lines' st'
    | Raises e => Raises e
    | UnboundLocalError => UnboundLocalError
    end.
Proof.
  revert st. induction lines as [|line lines IH]; intros st; [done|].
  cbn [app parse_lines]. by destruct (parse_line _ _ _ st line).
Qed.

(** One pass of the loop that completes. *)
Lemma parse_line_returns st line st' :
  parse_line get_date get_time getXYS st line = Returns st' →
  line ≠ EmptyString ∧
  (if is_epoch_line line
   then ∃ date time, get_date line = Ok date ∧ get_time line = Ok time ∧
                     epoch st' = epoch st + 1 ∧ stamp st' = Some (date, time)
   else epoch st' = epoch st ∧ stamp st' = stamp st) ∧
  (if is_position_line line
   then ∃ r, results st' = results st ++ [r] ∧ row_of_line line r ∧
             c_epoch r = epoch st' ∧ stamp st' = Some (c_date r, c_time r)
   else results st' = results st).
Proof.
  unfold parse_line, read_epoch, read_position. intros Hp.
  destruct line as [|c line]; [done|].
  split; [done|].
  set (l := String c line) in *.
  assert (∀ st1, match (if is_position_line l
                        then match getXYS l with
                             | Ok (svid, x, y, z, clockError) =>
                                 match stamp st1 with
                                 | Some (date, time) =>
                                     Returns (Parser (epoch st1) (stamp st1)
                                       (results st1 ++
                                        [DfRow (epoch st1) date time svid x y z clockError]))
                                 | None => UnboundLocalError
                                 end
                             | Raise e => Raises e
                             end
                        else Returns st1) with
                 | Returns st2 =>
                     epoch st2 = epoch st1 ∧ stamp st2 = stamp st1 ∧
                     if is_position_line l
                     then ∃ r, results st2 = results st1 ++ [r] ∧ row_of_line l r ∧
                               c_epoch r = epoch st1 ∧
                               stamp st1 = Some (c_date r, c_time r)
                     else results st2 = results st1
                 | _ => True
                 end) as Hpos.
  { intros st1. destruct (is_position_line l); [|done].
    destruct (getXYS l) as [[[[[svid x] y] z] ce]|e] eqn:Hxyz; [|done].
    destruct (stamp st1) as [[date time]|] eqn:Hst; [|done].
    cbn [epoch stamp results]. split; [done|]. split; [done|].
    by eexists (DfRow _ _ _ _ _ _ _ _). }
  destruct (is_epoch_line l).
  - destruct (get_date l) as [date|e]; [|done].
    destruct (get_time l) as [time|e]; [|done].
    specialize (Hpos (Parser (epoch st + 1) (Some (date, time)) (results st))).
    fold l in Hp. rewrite Hp in Hpos. cbn [epoch stamp results] in Hpos.
    destruct Hpos as (He & Hs & Hr). split; [by exists date, time|].
    destruct (is_position_line l); [|done].
    destruct Hr as (r & ? & ? & ? & ?). exists r. by rewrite He, Hs.
  - specialize (Hpos st). fold l in Hp. rewrite Hp in Hpos.
    destruct Hpos as (He & Hs & Hr). split; [done|].
    destruct (is_position_line l); [|done].
    destruct Hr as (r & ? & ? & ? & ?). exists r. by rewrite He, Hs.
Qed.

Lemma sorted_app_const (a : Z) (l1 l2 : list Z) :
  Forall (λ x, x = a) l1 → Forall (λ x, a ≤ x) l2 → Sorted Z.le l2 →
  Sorted Z.le (l1 ++ l2).
Proof.
  intros H1 H2 Hs. induction l1 as [|x l1 IH]; [done|].
  apply Forall_cons in H1 as [-> H1]. cbn [app]. constructor; [by apply IH|].
  destruct l1 as [|y l1]; cbn [app].
  - destruct H2; constructor. lia.
  - constructor. apply Forall_cons in H1 as [-> _]. lia.
Qed.

(** The loop, from any state of its locals, when it completes. *)
Lemma parse_lines_returns lines st st' :
  parse_lines get_date get_time getXYS lines st = Returns st' →
  ∃ new,
    results st' = results st ++ new ∧
    Forall2 row_of_line (filter (λ l, is_position_line l = true) lines) new ∧
    epoch st' = epoch st
                + Z.of_nat (length (filter (λ l, is_epoch_line l = true) lines)) ∧
    Forall (λ r, epoch st ≤ c_epoch r ≤ epoch st') new ∧
    Sorted Z.le (c_epoch <$> new) ∧
    (∀ r, r ∈ new → c_epoch r = epoch st → stamp st = Some (c_date r, c_time r)) ∧
    (∀ r, r ∈ new → epoch st < c_epoch r →
          ∃ h, h ∈ lines ∧ is_epoch_line h = true ∧
               get_date h = Ok (c_date r) ∧ get_time h = Ok (c_time r)) ∧
    (∀ r r', r ∈ new → r' ∈ new → c_epoch r = c_epoch r' →
             c_date r = c_date r' ∧ c_time r = c_time r') ∧
    Forall (λ l, l ≠ EmptyString) lines ∧
    (Forall (λ l, is_epoch_line l = false) lines → stamp st' = stamp st).
Proof.
  revert st. induction lines as [|line rest IH]; intros st Hp.
  { cbn [parse_lines] in Hp. injection Hp as <-. exists [].
    rewrite app_nil_r. cbn [filter list_filter length]. simpl.
    split; [done|]. split; [constructor|]. split; [lia|].
    split; [constructor|]. split; [constructor|].
    split; [by intros ? ?%elem_of_nil|]. split; [by intros ? ?%elem_of_nil|].
    split; [by intros ? ? ?%elem_of_nil|]. split; [constructor|done]. }
  cbn [parse_lines] in Hp.
  destruct (parse_line get_date get_time getXYS st line) as [st1|e|] eqn:Hl; [|done..].
  destruct (parse_line_returns st line st1 Hl) as (Hne & Hep & Hpos).
  destruct (IH st1 Hp)
    as (new2 & Hres & Hrows & Hepoch & Hrange & Hsorted & HA & HB & Hsame & Hblank & Hkeep).
  clear IH Hp Hl.
  set (n1 := length (filter (λ l, is_epoch_line l = true) [line])).
  assert (epoch st1 = epoch st + Z.of_nat n1 ∧ (n1 ≤ 1)%nat ∧
          (epoch st1 = epoch st → stamp st1 = stamp st) ∧
          (is_epoch_line line = false → stamp st1 = stamp st) ∧
          (epoch st < epoch st1 →
             is_epoch_line line = true ∧
             ∃ date time, get_date line = Ok date ∧ get_time line = Ok time ∧
                          stamp st1 = Some (date, time)))
    as (He1 & Hn1 & Hstay & Hstay' & Hmove).
  { subst n1. destruct (is_epoch_line line) eqn:Hline.
    - destruct Hep as (date & time & ? & ? & ? & ?).
      rewrite filter_cons_True by done. simpl.
      split; [lia|]. split; [lia|]. split; [lia|]. split; [done|].
      intros _. split; [done|]. by exists date, time.
    - destruct Hep as [? ?]. rewrite filter_cons_False by (by rewrite Hline). simpl.
      split; [lia|]. split; [lia|]. split; [done|]. split; [done|]. lia. }
  assert (∃ new1,
            results st1 = results st ++ new1 ∧
            Forall2 row_of_line (filter (λ l, is_position_line l = true) [line]) new1 ∧
            ∀ r, r ∈ new1 → c_epoch r = epoch st1 ∧
                            stamp st1 = Some (c_date r, c_time r))
    as (new1 & Hres1 & Hrows1 & Hnew1).
  { destruct (is_position_line line) eqn:Hline.
    - destruct Hpos as (r & ? & ? & ? & ?). exists [r].
      rewrite filter_cons_True by done. split; [done|].
      split; [by repeat constructor|]. by intros ? ->%list_elem_of_singleton.
    - exists []. rewrite filter_cons_False by (by rewrite Hline).
      rewrite app_nil_r. split; [done|]. split; [constructor|].
      by intros ? ?%elem_of_nil. }
  assert (epoch st1 ≤ epoch st') as Hle by lia.
  exists (new1 ++ new2).
  change (line :: rest) with ([line] ++ rest). rewrite !filter_app, length_app.
  fold n1. rewrite Hres, Hres1, app_assoc.
  split; [done|]. split; [by apply Forall2_app|]. split; [lia|].
  split; [|split; [|split; [|split; [|split; [|split]]]]].
  - apply Forall_app. split.
    + apply Forall_forall. intros r [-> _]%Hnew1. lia.
    + eapply Forall_impl; [exact Hrange|]. simpl. lia.
  - rewrite fmap_app. apply (sorted_app_const (epoch st1)); [| |done].
    + apply Forall_fmap, Forall_forall. by intros r [? _]%Hnew1.
    + apply Forall_fmap. eapply Forall_impl; [exact Hrange|]. simpl. lia.
  - intros r [Hr|Hr]%elem_of_app Hr0.
    + destruct (Hnew1 r Hr) as [He <-]. symmetry. apply Hstay. lia.
    + rewrite Forall_forall in Hrange. specialize (Hrange r Hr).
      rewrite <- Hstay by lia. apply HA; [done|lia].
  - intros r [Hr|Hr]%elem_of_app Hr0.
    + destruct (Hnew1 r Hr) as [He Hst].
      destruct Hmove as (Hline & date & time & ? & ? & Hst'); [lia|].
      exists line. split; [by left|]. split; [done|].
      rewrite Hst in Hst'. by simplify_eq.
    + rewrite Forall_forall in Hrange. specialize (Hrange r Hr).
      destruct (decide (epoch st1 < c_epoch r)) as [Hlt|Hge].
      * destruct (HB r Hr Hlt) as (h & ? & ?). exists h. split; [by right|done].
      * destruct Hmove as (Hline & date & time & ? & ? & Hst'); [lia|].
        exists line. split; [by left|]. split; [done|].
        rewrite (HA r Hr) in Hst' by lia. by simplify_eq.
  - rewrite Forall_forall in Hrange.
    intros r r' [Hr|Hr]%elem_of_app [Hr'|Hr']%elem_of_app Heq.
    + destruct (Hnew1 r Hr) as [_ Hs], (Hnew1 r' Hr') as [_ Hs'].
      rewrite Hs in Hs'. by simplify_eq.
    + destruct (Hnew1 r Hr) as [He Hs].
      rewrite (HA r' Hr') in Hs by lia. by simplify_eq.
    + destruct (Hnew1 r' Hr') as [He Hs].
      rewrite (HA r Hr) in Hs by lia. by simplify_eq.
    + by apply Hsame.
  - by constructor.
  - intros [Hline Hrest]%Forall_cons. rewrite Hkeep by done. by apply Hstay'.
Qed.

(** X18: the frame that the parser returns: one row per position line, in the
    order of the lines and with the coordinates that [getXYS] reads from
    the line.  The epochs of the rows never decrease; each lies between 1
    and the number of epoch lines, and the date and the time of the row are
    those that [get_date] and [get_time] read from an epoch line of the
    text; rows of one epoch carry one date and one time. *)
Theorem get_sp3_dataframe_rows lines (rows : list df_row) :
  _get_sp3_dataframe get_date get_time getXYS lines = Returns rows →
  Forall2 row_of_line (filter (λ l, is_position_line l = true) lines) rows ∧
  Sorted Z.le (c_epoch <$> rows) ∧
  (∀ r, r ∈ rows →
        1 ≤ c_epoch r
          ≤ Z.of_nat (length (filter (λ l, is_epoch_line l = true) lines)) ∧
        ∃ h, h ∈ lines ∧ is_epoch_line h = true ∧
             get_date h = Ok (c_date r) ∧ get_time h = Ok (c_time r)) ∧
  (∀ r r', r ∈ rows → r' ∈ rows → c_epoch r = c_epoch r' →
           c_date r = c_date r' ∧ c_time r = c_time r').
Proof.
  unfold _get_sp3_dataframe.
  destruct (parse_lines _ _ _ lines _) as [st'| |] eqn:Hp; [|done..].
  intros [= <-].
  destruct (parse_lines_returns lines _ st' Hp)
    as (new & Hres & Hrows & Hepoch & Hrange & Hsorted & HA & HB & Hsame & _).
  cbn [results epoch stamp app] in *. subst new.
  split; [done|]. split; [done|]. split; [|done].
  intros r Hr. rewrite Forall_forall in Hrange. specialize (Hrange r Hr).
  assert (c_epoch r ≠ 0) as Hnz.
  { intros Hz. by specialize (HA r Hr Hz). }
  split; [lia|]. apply HB; [done|lia].
Qed.

(** X19: an empty line stops the parser: when the lines before it are read
    without an exception, the index [line[0]] raises IndexError. *)
Theorem get_sp3_dataframe_blank_line (pre rest : list string) :
  _get_sp3_dataframe get_date get_time getXYS (pre ++ EmptyString :: rest)
  = match _get_sp3_dataframe get_date get_time getXYS pre with
    | Returns _ => Raises IndexError
    | Raises e => Raises e
    | UnboundLocalError => UnboundLocalError
    end.
Proof.
  unfold _get_sp3_dataframe. rewrite parse_lines_app.
  by destruct (parse_lines _ _ _ pre _).
Qed.

Lemma position_not_epoch line : is_position_line line = true → is_epoch_line line = false.
Proof.
  destruct line as [|c line]; [done|]. unfold is_position_line, is_epoch_line.
  intros ->%bool_decide_eq_true. apply bool_decide_eq_false.
  destruct line; discriminate.
Qed.

(** X20: a position line that comes before every epoch line stops the parser:
    when the lines before it are read without an exception, the parser
    raises what [getXYS] raises on the line, and UnboundLocalError when
    [getXYS] reads the line, as no date is bound yet. *)
Theorem get_sp3_dataframe_no_epoch (pre rest : list string) (p : string) :
  Forall (λ l, is_epoch_line l = false) pre →
  is_position_line p = true →
  _get_sp3_dataframe get_date get_time getXYS (pre ++ p :: rest)
  = match _get_sp3_dataframe get_date get_time getXYS pre with
    | Returns _ =>
        match getXYS p with
        | Ok _ => UnboundLocalError
        | Raise e => Raises e
        end
    | Raises e => Raises e
    | UnboundLocalError => UnboundLocalError
    end.
Proof.
  intros Hpre Hp. unfold _get_sp3_dataframe. rewrite parse_lines_app.
  destruct (parse_lines _ _ _ pre _) as [st| |] eqn:Hrun; [|done..].
  destruct (parse_lines_returns pre _ st Hrun) as (_ & _ & _ & _ & _ & _ & _ & _ & _ & _ & Hst).
  specialize (Hst Hpre). cbn [stamp] in Hst.
  cbn [parse_lines]. unfold parse_line, read_epoch, read_position.
  rewrite (position_not_epoch p Hp), Hp, Hst.
  destruct p as [|c p]; [done|].
  by destruct (getXYS (String c p)) as [[[[[svid x] y] z] ce]|e].
Qed.

End ParserFacts.

Lemma get_sp3_dataframe_rows_witness :
  let rows := [DfRow 1 "2020042" 0 "G01" (Exact.int 1) (Exact.int 2) (Exact.int 3)
                 (Exact.int 0);
               DfRow 1 "2020042" 0 "G02" (Exact.int 1) (Exact.int 2) (Exact.int 3)
                 (Exact.int 0)] in
  _get_sp3_dataframe ex_get_date ex_get_time ex_getXYS ex_lines = Returns rows ∧
  Sorted Z.le (c_epoch <$> rows) ∧
  ∀ r, r ∈ rows →
       ∃ h, h ∈ ex_lines ∧ is_epoch_line h = true ∧
            ex_get_date h = Ok (c_date r) ∧ ex_get_time h = Ok (c_time r).
Proof.
  intros rows.
  assert (_get_sp3_dataframe ex_get_date ex_get_time ex_getXYS ex_lines = Returns rows)
    as Hrun by reflexivity.
  destruct (get_sp3_dataframe_rows (FO := Exact.exact_float)
              ex_get_date ex_get_time ex_getXYS ex_lines rows Hrun)
    as (_ & Hsorted & Hstamp & _).
  split; [exact Hrun|]. split; [exact Hsorted|].
  intros r Hr. exact (proj2 (Hstamp r Hr)).
Defined.

Lemma get_sp3_dataframe_no_epoch_witness :
  _get_sp3_dataframe ex_get_date ex_get_time ex_getXYS
    ["#cP2020  2 11  0  0  0.00000000"; "PG01  15000.000000"; "EOF"]%string
  = UnboundLocalError.
Proof.
  apply (get_sp3_dataframe_no_epoch (FO := Exact.exact_float)
           ex_get_date ex_get_time ex_getXYS
           ["#cP2020  2 11  0  0  0.00000000"%string] ["EOF"%string]
           "PG01  15000.000000").
  - by repeat constructor.
  - reflexivity.
Defined.

Lemma locate_sat_single_group_witness :
  orbits ex_world !! "2020042"%string = Some {[ "G01"%string := ex_orbit ]} ∧
  ({[ "G01"%string := ex_orbit ]} : day_model) !! "G01"%string = Some ex_orbit ∧
  ∃ rows evs,
    _locate_sat [Query "2020042" (-1) "G01"; Query "2020042" 1200 "G01"] ex_world
    = (Ok rows, logged ex_world evs) ∧
    length rows = 2%nat.
Proof.
  assert (orbits ex_world !! "2020042"%string = Some {[ "G01"%string := ex_orbit ]})
    as H1 by apply lookup_singleton_eq.
  assert (({[ "G01"%string := ex_orbit ]} : day_model) !! "G01"%string = Some ex_orbit)
    as H2 by apply lookup_singleton_eq.
  split; [exact H1|]. split; [exact H2|].
  destruct (locate_sat_single_group "2020042" "G01" [-1; 1200] _ ex_orbit ex_world
              ltac:(discriminate) H1 H2 ltac:(discriminate) ex_orbit_wf)
    as (rows & evs & _ & Heq & Hlen & _).
  exists rows, evs. split; [exact Heq|exact Hlen].
Defined.

Lemma locate_sat_missing_sizes_witness :
  _locate_sat [Query "2020042" 0 "G02"; Query "2020042" 300 "G02"] ex_world
  = (Raise ValueError, logged ex_world [Warn (OrbitNotAvailable "G02" "2020042")]).
Proof.
  assert (orbits ex_world !! "2020042"%string ≫= (.!! "G02"%string) = None)
    as Hnone by reflexivity.
  exact (locate_sat_missing_sizes "2020042" "G02" [0; 300] ex_world
           ltac:(by left) Hnone).
Defined.
